(** * Worker agent: outbox, dispatcher client, scheduler and identity

    A shallow embedding of the Python sources under [bot/]
    ([outbox.py], [api.py], [jobs.py], [scheduler.py], [machine.py],
    [identity.py]) together with the properties of the worker core.

    Conventions.
    - Python values that cross the JSON boundary are terms of [json];
      a Python [dict] is the association list of a [JObj], kept in
      insertion order.
    - A Python exception is an [exn] carrying its class name and the
      text [str(e)]; a computation that may raise returns a [res].  The
      classes are those that derive from [Exception], which is what the
      network, the disk and the [json] module raise and what an
      [except Exception] clause catches.  No task is cancelled and the
      process is not interrupted: [asyncio.CancelledError],
      [KeyboardInterrupt] and [SystemExit] are outside the embedding.
    - Code that touches the disk or the network is written in the
      monad [M], which threads a [World]: the outbox file, the log of
      what the process did, and the oracles that decide what the
      environment answers (the k-th HTTP exchange, the k-th disk write).
      The outbox file, when present, is text that [read_text()] returns.
    - A handler is a function from the job to what awaiting it gives:
      a value that [json] encodes, or an exception.
    - The [json] module of the Python library is an interface
      ([JsonLib]); the theorems hold for every implementation of it. *)

From Stdlib Require Import ZArith Ascii String List Bool Lia.
From stdpp Require Import base option list gmap strings pretty.

Local Open Scope string_scope.

(** ** Python values *)

#[warnings="-register-all"]
Inductive json : Type :=
| JNull
| JBool (b : bool)
| JInt (z : Z)
| JFloat (repr : string)
| JStr (s : string)
| JArr (items : list json)
| JObj (fields : list (string * json)).

(** An exception whose class derives from [Exception]; [str(e)] is the
    second component. *)
Inductive exn : Type :=
| Exception (cls : string) (msg : string).

Definition py_str_exn (e : exn) : string :=
  match e with Exception _ msg => msg end.

Definition KeyError (k : string) : exn := Exception "KeyError" ("'" +:+ k +:+ "'").
Definition TypeError (msg : string) : exn := Exception "TypeError" msg.
Definition AttributeError (msg : string) : exn := Exception "AttributeError" msg.
Definition RuntimeError (msg : string) : exn := Exception "RuntimeError" msg.
Definition OSError (msg : string) : exn := Exception "OSError" msg.
Definition ValueError (msg : string) : exn := Exception "ValueError" msg.

Inductive res (A : Type) : Type :=
| Ret (a : A)
| Raise (e : exn).
Arguments Ret {A} a.
Arguments Raise {A} e.

Definition is_ret {A} (r : res A) : bool :=
  match r with Ret _ => true | Raise _ => false end.

(** *** Dictionaries *)

Fixpoint dict_lookup (k : string) (d : list (string * json)) : option json :=
  match d with
  | [] => None
  | (k', v) :: d' => if String.eqb k k' then Some v else dict_lookup k d'
  end.

(** [d[k] = v]: replaces the value in place, or adds the key last. *)
Fixpoint dict_set (k : string) (v : json) (d : list (string * json))
  : list (string * json) :=
  match d with
  | [] => [(k, v)]
  | (k', v') :: d' =>
      if String.eqb k k' then (k', v) :: d' else (k', v') :: dict_set k v d'
  end.

Definition type_name (v : json) : string :=
  match v with
  | JNull => "NoneType"
  | JBool _ => "bool"
  | JInt _ => "int"
  | JFloat _ => "float"
  | JStr _ => "str"
  | JArr _ => "list"
  | JObj _ => "dict"
  end.

(** [v[k]] for a string key [k]. *)
Definition py_getitem (v : json) (k : string) : res json :=
  match v with
  | JObj d =>
      match dict_lookup k d with
      | Some x => Ret x
      | None => Raise (KeyError k)
      end
  | JArr _ => Raise (TypeError "list indices must be integers or slices, not str")
  | JStr _ => Raise (TypeError "string indices must be integers, not 'str'")
  | _ => Raise (TypeError ("'" +:+ type_name v +:+ "' object is not subscriptable"))
  end.

(** [v.get(k, default)]: only a dict has the method. *)
Definition py_get (v : json) (k : string) (default : json) : res json :=
  match v with
  | JObj d =>
      match dict_lookup k d with
      | Some x => Ret x
      | None => Ret default
      end
  | _ => Raise (AttributeError
                  ("'" +:+ type_name v +:+ "' object has no attribute 'get'"))
  end.

(** [k in v] for a string key [k] and a dict [v]. *)
Definition dict_mem (k : string) (d : list (string * json)) : bool :=
  match dict_lookup k d with Some _ => true | None => false end.

(** [items[:m]] *)
Definition py_slice_to {A} (items : list A) (m : Z) : list A :=
  if (0 <=? m)%Z then take (Z.to_nat m) items
  else take (length items - Z.to_nat (- m)) items.

(** *** Text *)

(** Line boundaries of [str.splitlines] among the code points below 256. *)
Definition is_linebreak (c : ascii) : bool :=
  match nat_of_ascii c with
  | 10 | 11 | 12 | 13 | 28 | 29 | 30 | 133 => true
  | _ => false
  end.

Definition is_cr (c : ascii) : bool := Ascii.eqb c "013"%char.
Definition is_lf (c : ascii) : bool := Ascii.eqb c "010"%char.

Fixpoint splitlines_from (acc : string) (s : string) : list string :=
  match s with
  | EmptyString => if String.eqb acc "" then [] else [acc]
  | String c rest =>
      if is_linebreak c then
        match rest with
        | String c2 rest2 =>
            if is_cr c && is_lf c2
            then acc :: splitlines_from "" rest2
            else acc :: splitlines_from "" rest
        | EmptyString => acc :: splitlines_from "" rest
        end
      else splitlines_from (acc +:+ String c "") rest
  end.

Definition splitlines (s : string) : list string := splitlines_from "" s.

Definition newline : string := String "010"%char "".

Definition dquote : ascii := "034"%char.

(** ** The [json] library *)

Class JsonLib := {
  json_loads : string -> res json;
  json_dumps : json -> string;
  json_dumps_indent2 : json -> string;
}.

(** ** The environment *)

Inductive Request : Type :=
| PostClaim (bot_id ops : json) (limit : Z)
| PostReport (job_id action payload : json).

(** What one HTTP exchange yields: a transport failure, or a response
    with its status and what [await r.json()] gives on it. *)
Inductive NetOutcome : Type :=
| NetError (e : exn)
| NetResponse (status : Z) (body : res json).

Inductive Event : Type :=
| EvHttp (req : Request) (out : NetOutcome)
| EvAppend (item : json) (written : bool).

Record World : Type := mkWorld {
  outbox_file : option string;   (* .state/outbox.jsonl, None when absent *)
  disk : nat -> bool;            (* does the k-th write reach the disk *)
  reached : nat -> option nat;   (* what a refused k-th write leaves, see [append] *)
  writes : nat;                  (* writes attempted so far *)
  net : nat -> NetOutcome;       (* what the k-th HTTP exchange yields *)
  exchanges : nat;               (* HTTP exchanges so far *)
  log : list Event;              (* what the process did, oldest first *)
}.

Definition M (A : Type) : Type := World -> res A * World.

Definition ret {A} (a : A) : M A := fun w => (Ret a, w).
Definition raise {A} (e : exn) : M A := fun w => (Raise e, w).
Definition bind {A B} (m : M A) (k : A -> M B) : M B :=
  fun w => match m w with
           | (Ret a, w') => k a w'
           | (Raise e, w') => (Raise e, w')
           end.
Definition lift {A} (r : res A) : M A := fun w => (r, w).

(** [try: m  except Exception: h], every [exn] being an [Exception]. *)
Definition try_except {A} (m : M A) (h : exn -> M A) : M A :=
  fun w => match m w with
           | (Ret a, w') => (Ret a, w')
           | (Raise e, w') => h e w'
           end.

Notation "'let*' x ':=' m 'in' k" := (bind m (fun x => k))
  (at level 10, x name, m at level 100, k at level 200).

Definition res_bind {A B} (r : res A) (k : A -> res B) : res B :=
match r with
| Ret a => k a
| Raise e => Raise e
end.

Notation "'let+' x ':=' r 'in' k" := (res_bind r (fun x => k))
  (at level 10, x name, r at level 100, k at level 200).

(** ** [outbox.py] *)

Module Outbox.
Section WithJson.
Context `{JsonLib}.

Definition with_outbox (f : option string) (w : World) : World :=
  mkWorld f (disk w) (reached w) (writes w) (net w) (exchanges w) (log w).

(** [append(item)]: one line added at the end of the file, which
    [open("a")] creates when absent.  A write the disk refuses raises.
    What the file holds by then is for the disk to say: with
    [reached w k = None] the file could not be created or opened and is
    as it was; with [Some n] it was opened, so it exists, and the first
    [n] characters of the line got through before the error. *)
Definition append (item : json) : M unit := fun w =>
  let ok := disk w (writes w) in
  let old := default "" (outbox_file w) in
  let line := json_dumps item +:+ newline in
  let file' :=
    if ok then Some (old +:+ line)
    else match reached w (writes w) with
         | None => outbox_file w
         | Some n => Some (old +:+ substring 0 n line)
         end in
  let w' := mkWorld file' (disk w) (reached w) (S (writes w)) (net w) (exchanges w)
                    (log w ++ [EvAppend item ok]) in
  if ok then (Ret tt, w') else (Raise (OSError "write failed"), w').

(** [[json.loads(l) for l in lines]] *)
Fixpoint loads_all (lines : list string) : res (list json) :=
  match lines with
  | [] => Ret []
  | l :: ls =>
      let+ v := json_loads l in
      let+ vs := loads_all ls in
      Ret (v :: vs)
  end.

(** [drain(max_items)].  [read_text()] comes before [unlink]; the file
    of the embedding is text, so the read returns. *)
Definition drain (max_items : Z) : M (list json) := fun w =>
  match outbox_file w with
  | None => (Ret [], w)
  | Some text =>
      let lines := splitlines text in
      let w' := with_outbox None w in
      match loads_all lines with
      | Raise e => (Raise e, w')
      | Ret items => (Ret (py_slice_to items max_items), w')
      end
  end.

Definition default_max_items : Z := 1000%Z.

End WithJson.
End Outbox.

(** ** [settings.py] *)

Record Settings : Type := mkSettings {
  server_base : string;
  heartbeat_interval : Z;
  bot_lease_ttl : Z;
  job_lease_ttl : Z;
  claim_batch_size : Z;
  max_concurrency : Z;
  min_backoff_ms : Z;
  max_backoff_ms : Z;
  version : string;
}.

(** The values taken when the environment sets none. *)
Definition default_settings : Settings :=
  mkSettings "http://localhost:8000/v1" 30 120 180 5 2 500 60000 "1.0.0".

(** ** [api.py] *)

Module Api.

Record Response : Type := mkResponse {
  status : Z;
  json_body : res json;   (* what [await r.json()] gives *)
}.

(** [async with self._session.post(url, json=..., headers=...) as r] *)
Definition post (req : Request) : M Response := fun w =>
  let out := net w (exchanges w) in
  let w' := mkWorld (outbox_file w) (disk w) (reached w) (writes w) (net w)
                    (S (exchanges w)) (log w ++ [EvHttp req out]) in
  match out with
  | NetError e => (Raise e, w')
  | NetResponse st body => (Ret (mkResponse st body), w')
  end.

Definition claim (bot_id ops : json) (batch : Z) : M json :=
  let* r := post (PostClaim bot_id ops batch) in
  let* data := lift (json_body r) in
  lift (py_get data "jobs" (JArr [])).

Definition report (job_id action payload : json) : M json :=
  let* r := post (PostReport job_id action payload) in
  lift (json_body r).

End Api.

(** ** [state.py] and [jobs.py] *)

Record Job : Type := mkJob {
  id : json;
  op : json;
  payload : json;
  lease_until : json;
}.

(** What awaiting [handler(job)] gives.  [jobs.py] leaves the result
    untyped; the handlers here are those of the plugins' kind, whose
    result is a value that [json.dumps] encodes and whose failures are
    [Exception]s. *)
Definition Handler : Type := Job -> res json.

(** What an f-string shows for a hashable value. *)
Definition py_format (v : json) : string :=
  match v with
  | JNull => "None"
  | JBool true => "True"
  | JBool false => "False"
  | JInt z => pretty z
  | JFloat r => r
  | JStr s => s
  | JArr _ | JObj _ => ""
  end.

Module Jobs.

(** [run_job(job)] against the process-wide [REGISTRY], whose keys are
    the names given to [@op].  A list or a dict is unhashable, so the
    membership test itself raises on it. *)
Definition run_job (REGISTRY : gmap string Handler) (job : Job) : res json :=
  match op job with
  | JStr name =>
      match REGISTRY !! name with
      | None => Raise (RuntimeError ("No handler for op=" +:+ name))
      | Some handler => handler job
      end
  | JArr _ | JObj _ =>
      Raise (TypeError ("unhashable type: '" +:+ type_name (op job) +:+ "'"))
  | other => Raise (RuntimeError ("No handler for op=" +:+ py_format other))
  end.

End Jobs.

(** ** [scheduler.py]: the sequential parts *)

Module Scheduler.
Section WithJson.
Context `{JsonLib}.
Variable REGISTRY : gmap string Handler.

(** The fields the sequential code reads.  The semaphore is shared with
    the other tasks and is kept in the configuration of the event loop
    below. *)
Record t : Type := mkScheduler {
  bot_id : json;
  instance_id : json;
  ops : json;
}.

(** [Job(id=raw["id"], op=raw["op"], payload=raw["payload"],
        lease_until=raw.get("lease_until"))] *)
Definition decode (raw : json) : res Job :=
  let+ i := py_getitem raw "id" in
  let+ o := py_getitem raw "op" in
  let+ p := py_getitem raw "payload" in
  let+ l := py_get raw "lease_until" JNull in
  Ret (mkJob i o p l).

Definition outbox_entry (job_id : json) (action : string) (payload : json) : json :=
  JObj [("job_id", job_id); ("action", JStr action); ("payload", payload)].

Definition _process_one (self : t) (raw : json) : M unit :=
  let* job := lift (decode raw) in
  match Jobs.run_job REGISTRY job with
  | Raise e =>
      let payload :=
        JObj [("instance_id", instance_id self); ("error", JStr (py_str_exn e))] in
      try_except
        (let* _ := Api.report (id job) (JStr "fail") payload in ret tt)
        (fun _ => Outbox.append (outbox_entry (id job) "fail" payload))
  | Ret result =>
      let payload :=
        JObj [("instance_id", instance_id self); ("result", result)] in
      try_except
        (let* _ := Api.report (id job) (JStr "complete") payload in ret tt)
        (fun _ => Outbox.append (outbox_entry (id job) "complete" payload))
  end.

(** The body of the [try] in [flush_outbox]: the three subscripts are
    evaluated inside it. *)
Definition report_item (item : json) : M unit :=
  let* j := lift (py_getitem item "job_id") in
  let* a := lift (py_getitem item "action") in
  let* p := lift (py_getitem item "payload") in
  let* _ := Api.report j a p in
  ret tt.

(** The [for] loop of [flush_outbox], with its [break]. *)
Fixpoint flush_loop (items : list json) : M unit :=
  match items with
  | [] => ret tt
  | item :: rest => fun w =>
      match report_item item w with
      | (Ret _, w') => flush_loop rest w'
      | (Raise _, w') => Outbox.append item w'
      end
  end.

Definition flush_outbox : M unit :=
  let* items := Outbox.drain Outbox.default_max_items in
  flush_loop items.

End WithJson.
End Scheduler.

(** ** [scheduler.py] and [machine.py]: the tasks of the event loop

    The event loop runs one task at a time and changes task only where
    the running one awaits.  A configuration [Sys] records what the
    tasks share; a step is what one task does between two such points.
    The run loop ([Bot._run_loop]) calls [tick] again and again; the
    tasks a tick creates run [_run_guarded]; the heartbeat loop
    ([Bot._heartbeat_loop]) installs the assignments the server sends. *)

Module Machine.
Section WithJson.
Context `{JsonLib}.
Variable REGISTRY : gmap string Handler.
Variable settings : Settings.

Inductive TaskState : Type :=
| Running
| Done (r : res unit).

Record Task : Type := mkTask {
  t_raw : json;        (* the raw job given to [_run_guarded] *)
  t_tick : nat;        (* the tick that created the task *)
  t_cap : Z;           (* [max_concurrency] in force when it got its permit *)
  t_state : TaskState;
}.

(** Where the run loop is. *)
Inductive Pc : Type :=
| Idle                                            (* between two ticks *)
| FanOut (pending : list json) (blocked : option nat)
    (* in the [for] loop of [tick]; [blocked] names the semaphore
       object whose [acquire] the loop is suspended in, if any *)
| Gather.                                         (* in [asyncio.gather] *)

Record Sys : Type := mkSys {
  world : World;
  heap : list nat;             (* [_value] of every Semaphore made so far *)
  sem : nat;                   (* [scheduler.sem]: which of them it is now *)
  sched : Scheduler.t;
  cap : Z;                     (* [assignment["max_concurrency"]] *)
  tasks : list Task;           (* every task created so far *)
  pc : Pc;
  ticks : nat;                 (* ticks started so far *)
  outcomes : list (res unit);  (* how each finished tick ended *)
}.

Definition is_running (t : Task) : bool :=
  match t_state t with Running => true | Done _ => false end.

Definition in_flight (s : Sys) : nat := length (filter (fun t => is_running t = true) (tasks s)).

(** [Scheduler(api, bot_id, instance_id, assignment_ops, max_conc)] *)
Definition init (w : World) (sc : Scheduler.t) (max_conc : nat) : Sys :=
  mkSys w [max_conc] 0 sc (Z.of_nat max_conc) [] Idle 0 [].

(** [if not jobs] *)
Definition py_truthy (v : json) : bool :=
  match v with
  | JNull => false
  | JBool b => b
  | JInt z => negb (z =? 0)%Z
  | JFloat r => negb (String.eqb r "0.0" || String.eqb r "-0.0")
  | JStr s => negb (String.eqb s "")
  | JArr l => match l with [] => false | _ => true end
  | JObj d => match d with [] => false | _ => true end
  end.

Fixpoint chars (s : string) : list json :=
  match s with
  | EmptyString => []
  | String c rest => JStr (String c "") :: chars rest
  end.

(** [for raw in jobs] *)
Definition py_iter (v : json) : res (list json) :=
  match v with
  | JArr l => Ret l
  | JStr s => Ret (chars s)
  | JObj d => Ret (map (fun kv => JStr (fst kv)) d)
  | _ => Raise (TypeError ("'" +:+ type_name v +:+ "' object is not iterable"))
  end.

(** Steps 1 to 3 of [tick]: flush, claim, idle guard.  [Ret []] stands
    for the early return after the short sleep. *)
Definition tick_begin (sc : Scheduler.t) : M (list json) :=
  let* _ := Scheduler.flush_outbox in
  let* jobs := Api.claim (Scheduler.bot_id sc) (Scheduler.ops sc)
                         (claim_batch_size settings) in
  if py_truthy jobs then lift (py_iter jobs) else ret [].

Definition end_tick (r : res unit) (w : World) (s : Sys) : Sys :=
  mkSys w (heap s) (sem s) (sched s) (cap s) (tasks s) Idle (ticks s)
        (outcomes s ++ [r]).

(** The run loop calls [tick()]. *)
Definition tick (s : Sys) : option Sys :=
  match pc s with
  | Idle =>
      let s1 := mkSys (world s) (heap s) (sem s) (sched s) (cap s) (tasks s)
                      Idle (S (ticks s)) (outcomes s) in
      match tick_begin (sched s) (world s) with
      | (Raise e, w') => Some (end_tick (Raise e) w' s1)
      | (Ret [], w') => Some (end_tick (Ret tt) w' s1)
      | (Ret jobs, w') =>
          Some (mkSys w' (heap s) (sem s) (sched s) (cap s) (tasks s)
                      (FanOut jobs None) (S (ticks s)) (outcomes s))
      end
  | _ => None
  end.

Definition after_spawn (rest : list json) : Pc :=
  match rest with [] => Gather | _ => FanOut rest None end.

(** One turn of the [for] loop: [await self.sem.acquire()] on the
    semaphore that [self.sem] names when the call is made, then
    [create_task(self._run_guarded(raw))].  With no permit left the loop
    stays suspended in that object's [acquire]. *)
Definition spawn (s : Sys) : option Sys :=
  match pc s with
  | FanOut (raw :: rest) blocked =>
      let target := default (sem s) blocked in
      match heap s !! target with
      | Some (S v) =>
          Some (mkSys (world s) (<[target := v]> (heap s)) (sem s) (sched s)
                      (cap s)
                      (tasks s ++ [mkTask raw (ticks s) (cap s) Running])
                      (after_spawn rest) (ticks s) (outcomes s))
      | Some O =>
          match blocked with
          | None =>
              Some (mkSys (world s) (heap s) (sem s) (sched s) (cap s)
                          (tasks s) (FanOut (raw :: rest) (Some target))
                          (ticks s) (outcomes s))
          | Some _ => None
          end
      | None => None
      end
  | _ => None
  end.

(** [_run_guarded(raw)]: [_process_one], then in the [finally] a
    release of the semaphore that [self.sem] names at that moment. *)
Definition _run_guarded (i : nat) (s : Sys) : option Sys :=
  match tasks s !! i with
  | Some (mkTask raw tk c Running) =>
      let '(r, w') := Scheduler._process_one REGISTRY (sched s) raw (world s) in
      match heap s !! sem s with
      | Some v =>
          Some (mkSys w' (<[sem s := S v]> (heap s)) (sem s) (sched s) (cap s)
                      (<[i := mkTask raw tk c (Done r)]> (tasks s))
                      (pc s) (ticks s) (outcomes s))
      | None => None
      end
  | _ => None
  end.

Definition of_tick (n : nat) (t : Task) : bool := Nat.eqb (t_tick t) n.

Definition finished_well (t : Task) : bool :=
  match t_state t with Done (Ret _) => true | _ => false end.

(** [await asyncio.gather] over the tasks of the tick returns once
    every one of them has returned. *)
Definition join (s : Sys) : option Sys :=
  match pc s with
  | Gather =>
      if forallb finished_well (filter (fun t => of_tick (ticks s) t = true) (tasks s))
      then Some (end_tick (Ret tt) (world s) s)
      else None
  | _ => None
  end.

(** [gather] re-raises the exception of a task of the tick as soon as
    that task has ended with it; the other tasks keep running. *)
Definition join_raise (i : nat) (s : Sys) : option Sys :=
  match pc s, tasks s !! i with
  | Gather, Some (mkTask _ tk _ (Done (Raise e))) =>
      if Nat.eqb tk (ticks s) then Some (end_tick (Raise e) (world s) s) else None
  | _, _ => None
  end.

(** The heartbeat loop on a response that carries an assignment with
    operations [new_ops] and the integer [m] as [max_concurrency]:
    [asyncio.Semaphore(m)] raises on a negative [m], after the other
    two assignments, and the loop swallows that. *)
Definition heartbeat_assign (new_ops : json) (m : Z) (s : Sys) : option Sys :=
  let sc := Scheduler.mkScheduler (Scheduler.bot_id (sched s))
                                  (Scheduler.instance_id (sched s)) new_ops in
  if (0 <=? m)%Z
  then Some (mkSys (world s) (heap s ++ [Z.to_nat m]) (length (heap s)) sc m
                   (tasks s) (pc s) (ticks s) (outcomes s))
  else Some (mkSys (world s) (heap s) (sem s) sc m
                   (tasks s) (pc s) (ticks s) (outcomes s)).

Inductive Step : Type :=
| DoTick
| DoSpawn
| DoFinish (i : nat)
| DoJoin
| DoJoinRaise (i : nat)
| DoAssign (new_ops : json) (m : Z).

Definition step (e : Step) (s : Sys) : option Sys :=
  match e with
  | DoTick => tick s
  | DoSpawn => spawn s
  | DoFinish i => _run_guarded i s
  | DoJoin => join s
  | DoJoinRaise i => join_raise i s
  | DoAssign o m => heartbeat_assign o m s
  end.

Fixpoint run (es : list Step) (s : Sys) : option Sys :=
  match es with
  | [] => Some s
  | e :: es' =>
      match step e s with
      | Some s' => run es' s'
      | None => None
      end
  end.

Definition is_assign (e : Step) : bool :=
  match e with DoAssign _ _ => true | _ => false end.

(** The permit accounting of a scheduler built with [n] permits whose
    semaphore was never replaced: the one semaphore holds the permits
    that no running task has. *)
Definition balanced (n : nat) (s : Sys) : Prop :=
  sem s = 0 /\
  (exists v, heap s = [v] /\ v + in_flight s = n) /\
  cap s = Z.of_nat n /\
  Forall (fun t => t_cap t = Z.of_nat n) (tasks s) /\
  (forall pending target, pc s = FanOut pending (Some target) -> target = 0).

End WithJson.
End Machine.

(** ** [identity.py] *)

Module Identity.
Section WithJson.
Context `{JsonLib}.

(** What the host answers: [socket.gethostname()], [platform.platform()],
    [hashlib.sha256(..).hexdigest()] and the successive [uuid.uuid4()]. *)
Record Host : Type := mkHost {
  gethostname : string;
  platform : string;
  sha256_hex : string -> string;
  uuid4 : nat -> string;
}.

Record Env : Type := mkEnv {
  identity_file : option string;   (* .state/identity.json *)
  uuids_drawn : nat;
}.

Definition _machine_fingerprint (h : Host) : string :=
  sha256_hex h (gethostname h +:+ "|" +:+ platform h).

Definition load_identity (h : Host) (e : Env) : res json * Env :=
  match identity_file e with
  | Some text => (json_loads text, e)
  | None =>
      let ident := JObj [("bot_key", JStr (_machine_fingerprint h));
                         ("instance_id", JStr (uuid4 h (uuids_drawn e)));
                         ("hostname", JStr (gethostname h));
                         ("os", JStr (platform h))] in
      (Ret ident, mkEnv (Some (json_dumps_indent2 ident)) (S (uuids_drawn e)))
  end.

(** [v[k] = x] for a string key [k]. *)
Definition py_setitem (v : json) (k : string) (x : json) : res json :=
  match v with
  | JObj d => Ret (JObj (dict_set k x d))
  | JArr _ => Raise (TypeError "list indices must be integers or slices, not str")
  | _ => Raise (TypeError
                  ("'" +:+ type_name v +:+ "' object does not support item assignment"))
  end.

Definition rotate_instance_id (h : Host) (e : Env) : res json * Env :=
  match load_identity h e with
  | (Raise x, e1) => (Raise x, e1)
  | (Ret ident, e1) =>
      let fresh := JStr (uuid4 h (uuids_drawn e1)) in
      let e2 := mkEnv (identity_file e1) (S (uuids_drawn e1)) in
      match py_setitem ident "instance_id" fresh with
      | Raise x => (Raise x, e2)
      | Ret ident' =>
          (Ret ident', mkEnv (Some (json_dumps_indent2 ident')) (uuids_drawn e2))
      end
  end.

End WithJson.
End Identity.

(** ** An implementation of the [json] interface

    [json.dumps] with its default separators and with [indent=2], and
    [json.loads], on documents whose numbers are integers and whose
    strings stay below code point 256.  The scenarios at the end of the
    file run on it. *)

Module MiniJson.

Definition hex_digit (n : nat) : ascii :=
  match n with
  | 0 => "0" | 1 => "1" | 2 => "2" | 3 => "3" | 4 => "4" | 5 => "5"
  | 6 => "6" | 7 => "7" | 8 => "8" | 9 => "9" | 10 => "a" | 11 => "b"
  | 12 => "c" | 13 => "d" | 14 => "e" | _ => "f"
  end%char.

Definition escape_char (c : ascii) : string :=
  let n := nat_of_ascii c in
  if Ascii.eqb c dquote then String "\"%char (String dquote "")
  else if Ascii.eqb c "\"%char then "\\"
  else if Ascii.eqb c "010"%char then "\n"
  else if Ascii.eqb c "013"%char then "\r"
  else if Ascii.eqb c "009"%char then "\t"
  else if Ascii.eqb c "008"%char then "\b"
  else if Ascii.eqb c "012"%char then "\f"
  else if (n <? 32)%nat || (127 <? n)%nat
       then "\u00" +:+ String (hex_digit (n / 16)) (String (hex_digit (n mod 16)) "")
       else String c "".

Fixpoint escape (s : string) : string :=
  match s with
  | EmptyString => ""
  | String c rest => escape_char c +:+ escape rest
  end.

Definition quote (s : string) : string :=
  String dquote (escape s +:+ String dquote "").

Fixpoint join (sep : string) (parts : list string) : string :=
  match parts with
  | [] => ""
  | [x] => x
  | x :: rest => x +:+ sep +:+ join sep rest
  end.

Fixpoint dumps (v : json) : string :=
  match v with
  | JNull => "null"
  | JBool true => "true"
  | JBool false => "false"
  | JInt z => pretty z
  | JFloat r => r
  | JStr s => quote s
  | JArr l => "[" +:+ join ", " (map dumps l) +:+ "]"
  | JObj d =>
      "{" +:+ join ", " (map (fun kv => quote (fst kv) +:+ ": " +:+ dumps (snd kv)) d)
          +:+ "}"
  end.

Fixpoint spaces (n : nat) : string :=
  match n with
  | O => ""
  | S n' => " " +:+ spaces n'
  end.

Definition newline_indent (level : nat) : string := newline +:+ spaces (2 * level).

Fixpoint dumps_at (level : nat) (v : json) : string :=
  match v with
  | JArr [] => "[]"
  | JObj [] => "{}"
  | JArr l =>
      "[" +:+ newline_indent (S level)
          +:+ join ("," +:+ newline_indent (S level)) (map (dumps_at (S level)) l)
          +:+ newline_indent level +:+ "]"
  | JObj d =>
      "{" +:+ newline_indent (S level)
          +:+ join ("," +:+ newline_indent (S level))
                   (map (fun kv => quote (fst kv) +:+ ": " +:+ dumps_at (S level) (snd kv)) d)
          +:+ newline_indent level +:+ "}"
  | other => dumps other
  end.

Definition is_ws (c : ascii) : bool :=
  Ascii.eqb c " "%char || Ascii.eqb c "010"%char || Ascii.eqb c "013"%char
  || Ascii.eqb c "009"%char.

Fixpoint skip_ws (s : string) : string :=
  match s with
  | String c rest => if is_ws c then skip_ws rest else s
  | EmptyString => s
  end.

Definition digit_of (c : ascii) : option Z :=
  let n := nat_of_ascii c in
  if (48 <=? n)%nat && (n <=? 57)%nat then Some (Z.of_nat (n - 48)) else None.

Fixpoint parse_digits (acc : Z) (s : string) : Z * string :=
  match s with
  | String c rest =>
      match digit_of c with
      | Some d => parse_digits (10 * acc + d)%Z rest
      | None => (acc, s)
      end
  | EmptyString => (acc, s)
  end.

Definition starts_number_tail (s : string) : bool :=
  match s with
  | String c _ => Ascii.eqb c "."%char || Ascii.eqb c "e"%char || Ascii.eqb c "E"%char
  | EmptyString => false
  end.

(** An integer literal; a fraction or an exponent is outside the fragment. *)
Definition parse_int (s : string) : option (Z * string) :=
  let '(neg, body) :=
    match s with
    | String "-"%char rest => (true, rest)
    | _ => (false, s)
    end in
  match body with
  | String c rest =>
      match digit_of c with
      | Some d =>
          let '(n, tail) :=
            if (d =? 0)%Z then (0%Z, rest) else parse_digits d rest in
          if starts_number_tail tail then None
          else match tail with
               | String c2 _ =>
                   match digit_of c2 with
                   | Some _ => None
                   | None => Some (if neg then (- n)%Z else n, tail)
                   end
               | EmptyString => Some (if neg then (- n)%Z else n, tail)
               end
      | None => None
      end
  | EmptyString => None
  end.

Definition hex_value (c : ascii) : option nat :=
  let n := nat_of_ascii c in
  if (48 <=? n)%nat && (n <=? 57)%nat then Some (n - 48)%nat
  else if (97 <=? n)%nat && (n <=? 102)%nat then Some (n - 87)%nat
  else if (65 <=? n)%nat && (n <=? 70)%nat then Some (n - 55)%nat
  else None.

(** The characters of a string literal after its opening quote. *)
Fixpoint parse_chars (acc : string) (s : string) : option (string * string) :=
  match s with
  | EmptyString => None
  | String c rest =>
      if Ascii.eqb c dquote then Some (acc, rest)
      else if Ascii.eqb c "\"%char then
        match rest with
        | String e rest2 =>
            let simple (x : ascii) := parse_chars (acc +:+ String x "") rest2 in
            if Ascii.eqb e dquote then simple dquote
            else if Ascii.eqb e "\"%char then simple "\"%char
            else if Ascii.eqb e "/"%char then simple "/"%char
            else if Ascii.eqb e "n"%char then simple "010"%char
            else if Ascii.eqb e "r"%char then simple "013"%char
            else if Ascii.eqb e "t"%char then simple "009"%char
            else if Ascii.eqb e "b"%char then simple "008"%char
            else if Ascii.eqb e "f"%char then simple "012"%char
            else if Ascii.eqb e "u"%char then
              match rest2 with
              | String "0"%char (String "0"%char (String h (String l rest3))) =>
                  match hex_value h, hex_value l with
                  | Some a, Some b =>
                      parse_chars (acc +:+ String (ascii_of_nat (16 * a + b)) "") rest3
                  | _, _ => None
                  end
              | _ => None
              end
            else None
        | EmptyString => None
        end
      else if (nat_of_ascii c <? 32)%nat then None
      else parse_chars (acc +:+ String c "") rest
  end.

Definition expect (lit : string) (v : json) (s : string) : option (json * string) :=
  if String.prefix lit s
  then Some (v, String.substring (String.length lit) (String.length s - String.length lit) s)
  else None.

Fixpoint parse_value (n : nat) (s : string) {struct n} : option (json * string) :=
  match n with
  | O => None
  | S n' =>
      match skip_ws s with
      | EmptyString => None
      | String c rest =>
          if Ascii.eqb c "n"%char then expect "null" JNull (String c rest)
          else if Ascii.eqb c "t"%char then expect "true" (JBool true) (String c rest)
          else if Ascii.eqb c "f"%char then expect "false" (JBool false) (String c rest)
          else if Ascii.eqb c dquote then
            match parse_chars "" rest with
            | Some (str, tail) => Some (JStr str, tail)
            | None => None
            end
          else if Ascii.eqb c "["%char then
            match skip_ws rest with
            | String "]"%char tail => Some (JArr [], tail)
            | _ => parse_elems n' rest []
            end
          else if Ascii.eqb c "{"%char then
            match skip_ws rest with
            | String "}"%char tail => Some (JObj [], tail)
            | _ => parse_members n' rest []
            end
          else
            match parse_int (String c rest) with
            | Some (z, tail) => Some (JInt z, tail)
            | None => None
            end
      end
  end
with parse_elems (n : nat) (s : string) (acc : list json) {struct n}
  : option (json * string) :=
  match n with
  | O => None
  | S n' =>
      match parse_value n' s with
      | Some (v, rest) =>
          match skip_ws rest with
          | String ","%char tail => parse_elems n' tail (acc ++ [v])
          | String "]"%char tail => Some (JArr (acc ++ [v]), tail)
          | _ => None
          end
      | None => None
      end
  end
with parse_members (n : nat) (s : string) (acc : list (string * json)) {struct n}
  : option (json * string) :=
  match n with
  | O => None
  | S n' =>
      match skip_ws s with
      | String "034"%char rest =>
          match parse_chars "" rest with
          | Some (key, rest1) =>
              match skip_ws rest1 with
              | String ":"%char rest2 =>
                  match parse_value n' rest2 with
                  | Some (v, rest3) =>
                      match skip_ws rest3 with
                      | String ","%char tail => parse_members n' tail (dict_set key v acc)
                      | String "}"%char tail => Some (JObj (dict_set key v acc), tail)
                      | _ => None
                      end
                  | None => None
                  end
              | _ => None
              end
          | None => None
          end
      | _ => None
      end
  end.

Definition JSONDecodeError (msg : string) : exn := Exception "JSONDecodeError" msg.

Definition loads (s : string) : res json :=
  match parse_value (2 * String.length s + 2) s with
  | Some (v, rest) =>
      match skip_ws rest with
      | EmptyString => Ret v
      | _ => Raise (JSONDecodeError "Extra data")
      end
  | None => Raise (JSONDecodeError "Expecting value")
  end.

#[export] Instance lib : JsonLib := {|
  json_loads := loads;
  json_dumps := dumps;
  json_dumps_indent2 := dumps_at 0;
|}.

End MiniJson.

(** ** Reading the log *)

(** A call of [ApiClient.report] returns when the exchange gives a
    response whose body decodes. *)
Definition report_ok (out : NetOutcome) : bool :=
  match out with
  | NetResponse _ (Ret _) => true
  | _ => false
  end.

(** The report calls that returned, oldest first. *)
Fixpoint delivered (evs : list Event) : list Request :=
  match evs with
  | [] => []
  | EvHttp (PostReport j a p) out :: rest =>
      if report_ok out then PostReport j a p :: delivered rest else delivered rest
  | _ :: rest => delivered rest
  end.

(** The report calls that were made, oldest first. *)
Fixpoint attempted (evs : list Event) : list Request :=
  match evs with
  | [] => []
  | EvHttp (PostReport j a p) _ :: rest => PostReport j a p :: attempted rest
  | _ :: rest => attempted rest
  end.

(** The dispatcher's contract for a report: any 2xx is success. *)
Definition is_2xx (st : Z) : bool := (200 <=? st)%Z && (st <? 300)%Z.

Definition answered_2xx (out : NetOutcome) : bool :=
  match out with
  | NetResponse st _ => is_2xx st
  | NetError _ => false
  end.

(** The report calls that the server answered with a 2xx, oldest first. *)
Fixpoint succeeded (evs : list Event) : list Request :=
  match evs with
  | [] => []
  | EvHttp (PostReport j a p) out :: rest =>
      if answered_2xx out then PostReport j a p :: succeeded rest else succeeded rest
  | _ :: rest => succeeded rest
  end.

(** The entries [outbox.append] was called with, oldest first. *)
Fixpoint appended (evs : list Event) : list json :=
  match evs with
  | [] => []
  | EvAppend item _ :: rest => item :: appended rest
  | _ :: rest => appended rest
  end.

(** The call [flush_outbox] makes for an outbox entry that has the
    three keys. *)
Definition entry_request (item : json) : option Request :=
  match py_getitem item "job_id", py_getitem item "action",
        py_getitem item "payload" with
  | Ret j, Ret a, Ret p => Some (PostReport j a p)
  | _, _, _ => None
  end.

(** ** Scenarios *)

Module Scenario.
Import MiniJson.

Definition disk_ok : nat -> bool := fun _ => true.
Definition disk_full : nat -> bool := fun _ => false.

(** A refused write has opened the file and got nothing through. *)
Definition nothing_through : nat -> option nat := fun _ => Some 0.

Definition accepted : NetOutcome :=
  NetResponse 200 (Ret (JObj [("status", JStr "accepted")])).
Definition unavailable : NetOutcome :=
  NetResponse 503 (Ret (JObj [("error", JStr "timeout")])).
Definition unreachable : NetOutcome :=
  NetError (Exception "ClientConnectorError" "Cannot connect to host").

(** The exchanges answer as listed, and [accepted] after the list. *)
Definition script (outs : list NetOutcome) : nat -> NetOutcome :=
  fun k => nth k outs accepted.

Definition world0 (file : option string) (d : nat -> bool)
    (n : nat -> NetOutcome) : World :=
  mkWorld file d nothing_through 0 n 0 [].

(** [plugins/sum.py] on integer operands. *)
Definition sum_handler : Handler := fun job =>
  let+ a := py_getitem (payload job) "a" in
  let+ b := py_getitem (payload job) "b" in
  match a, b with
  | JInt x, JInt y => Ret (JObj [("result", JInt (x + y))])
  | _, _ => Raise (TypeError "unsupported operand type(s) for +")
  end.

Definition registry : gmap string Handler := {[ "sum" := sum_handler ]}.

Definition self : Scheduler.t :=
  Scheduler.mkScheduler (JStr "bot_1") (JStr "inst_1") (JArr [JStr "sum"]).

Definition raw_job (name : string) (a b : Z) : json :=
  JObj [("id", JStr name); ("op", JStr "sum");
        ("payload", JObj [("a", JInt a); ("b", JInt b)])].

Definition job_1 : json := raw_job "job_1" 1 2.

Definition payload_1 : json :=
  JObj [("instance_id", JStr "inst_1"); ("result", JObj [("result", JInt 3)])].

Definition entry (name : string) (n : Z) : json :=
  JObj [("job_id", JStr name); ("action", JStr "complete");
        ("payload", JObj [("instance_id", JStr "inst_1");
                          ("result", JObj [("result", JInt n)])])].

Definition e1 : json := entry "job_1" 1.
Definition e2 : json := entry "job_2" 2.
Definition e3 : json := entry "job_3" 3.

Definition line (item : json) : string := dumps item +:+ newline.

Definition three_pending : option string := Some (line e1 +:+ line e2 +:+ line e3).

Definition claim_of (jobs : list json) : NetOutcome :=
  NetResponse 200 (Ret (JObj [("jobs", JArr jobs)])).

(** Three entries wait in the outbox; the first report is accepted and
    the second cannot reach the server. *)
Definition flaky_flush : World :=
  world0 three_pending disk_ok (script [accepted; unreachable]).

(** Two jobs are claimed; the report of the first cannot reach the
    server and the disk refuses the write that would keep it. *)
Definition double_failure : World :=
  world0 None disk_full (script [claim_of [job_1; raw_job "job_2" 3 4]; unreachable]).

(** Two jobs are claimed and run under two permits.  While they run the
    heartbeat brings an assignment with [max_concurrency] 1.  Both end,
    the tick returns, and the next tick claims three jobs. *)
Definition reassigned : World :=
  world0 None disk_ok
    (script [claim_of [raw_job "a" 1 1; raw_job "b" 2 2]; accepted; accepted;
             claim_of [raw_job "c" 1 1; raw_job "d" 1 1; raw_job "e" 1 1]]).

Definition reassigned_steps : list Machine.Step :=
  [Machine.DoTick; Machine.DoSpawn; Machine.DoSpawn;
   Machine.DoAssign (JArr [JStr "sum"]) 1;
   Machine.DoFinish 0; Machine.DoFinish 1; Machine.DoJoin;
   Machine.DoTick; Machine.DoSpawn; Machine.DoSpawn; Machine.DoSpawn].

(** A job whose op no plugin registered, running as the only task. *)
Definition raw_unknown : json :=
  JObj [("id", JStr "job_9"); ("op", JStr "multiply");
        ("payload", JObj [("a", JInt 2); ("b", JInt 3)])].

Definition one_running (raw : json) (w : World) : Machine.Sys :=
  Machine.mkSys w [1] 0 self 2 [Machine.mkTask raw 1 2 Machine.Running]
                Machine.Gather 1 [].

Definition decoded_1 : Job :=
  mkJob (JStr "job_1") (JStr "sum") (JObj [("a", JInt 1); ("b", JInt 2)]) JNull.

Definition decoded_unknown : Job :=
  mkJob (JStr "job_9") (JStr "multiply") (JObj [("a", JInt 2); ("b", JInt 3)]) JNull.

Definition identity_fields : list (string * json) :=
  [("bot_key", JStr "keep-this-key"); ("instance_id", JStr "old-instance");
   ("hostname", JStr "host"); ("os", JStr "os")].

Definition host : Identity.Host :=
  Identity.mkHost "test-host" "test-platform" (fun _ => "keep-this-key")
                  (fun k => "uuid-" +:+ pretty k).

Definition identity_text : string := dumps (JObj identity_fields).

End Scenario.

(** Every line of a concrete file parses to the entry beside it. *)
Ltac parsed_lines :=
  match goal with
  | |- Forall2 _ ?ls _ =>
      let ls' := eval vm_compute in ls in
      change ls with ls';
      repeat (apply Forall2_cons_2; [vm_compute; reflexivity|]);
      apply Forall2_nil_2
  end.

(** ** Sequences of calls, and what they are measured by *)

(** No character of [s] is a line boundary for [str.splitlines]. *)
Fixpoint no_linebreak (s : string) : bool :=
  match s with
  | EmptyString => true
  | String c rest => negb (is_linebreak c) && no_linebreak rest
  end.

Section Sequences.
Context `{JsonLib}.

(** [for item in items: outbox.append(item)] *)
Fixpoint append_all (items : list json) : M unit :=
  match items with
  | [] => ret tt
  | item :: rest => let* _ := Outbox.append item in append_all rest
  end.

(** The text those appends write. *)
Fixpoint file_of (items : list json) : string :=
  match items with
  | [] => ""
  | item :: rest => json_dumps item +:+ newline +:+ file_of rest
  end.

End Sequences.

(** The permits there are: those the semaphores hold and those the
    running tasks hold. *)
Definition permits (s : Machine.Sys) : nat :=
  sum_list (Machine.heap s) + Machine.in_flight s.

(** The permits the assignments of a schedule bring in. *)
Fixpoint granted (es : list Machine.Step) : nat :=
  match es with
  | [] => 0
  | Machine.DoAssign _ m :: rest =>
      (if (0 <=? m)%Z then Z.to_nat m else 0) + granted rest
  | _ :: rest => granted rest
  end.

(** The [for] loop of [tick] is suspended in the [acquire] of a
    semaphore that has no permit and that [scheduler.sem] no longer
    names. *)
Definition starved (old : nat) (s : Machine.Sys) : Prop :=
  (exists pending, Machine.pc s = Machine.FanOut pending (Some old)) /\
  Machine.heap s !! old = Some 0 /\
  Machine.sem s <> old.

(** ** [jobs.py]: registration *)

Module Registry.

(** What [@op(name)] does to [REGISTRY] when it decorates [fn]. *)
Definition op (name : string) (fn : Handler) (REGISTRY : gmap string Handler)
  : gmap string Handler :=
  <[name := fn]> REGISTRY.

End Registry.

(** ** [api.py]: registration and headers

    [register] is written over the outcome of its one HTTP exchange,
    given as an argument.  [py_repr] is what [str()] gives on a list or
    a dict. *)

Module Client.
Section WithRepr.
Variable py_repr : json -> string.
Variable settings : Settings.

(** What an f-string shows for a value. *)
Definition fstr (v : json) : string :=
  match v with
  | JArr _ | JObj _ => py_repr v
  | _ => py_format v
  end.

(** The client's token; [JNull] is [None]. *)
Record t : Type := mkClient {
  _token : json;
}.

Definition new : t := mkClient JNull.

Definition _headers (self : t) : list (string * string) :=
  let hdr := [("Content-Type", "application/json")] in
  if Machine.py_truthy (_token self)
  then (hdr ++ [("Authorization", "Bearer " +:+ fstr (_token self))])%list
  else hdr.

(** [a | b] on a dict [a]. *)
Definition dict_or (a b : json) : res json :=
  match a, b with
  | JObj x, JObj y =>
      Ret (JObj (fold_left (fun acc kv => dict_set (fst kv) (snd kv) acc) y x))
  | _, _ =>
      Raise (TypeError ("unsupported operand type(s) for |: '" +:+ type_name a
                        +:+ "' and '" +:+ type_name b +:+ "'"))
  end.

(** The [body] of [register]. *)
Definition register_body (ident capabilities resources constraints meta : json)
  : res json :=
  let+ bot_key := py_getitem ident "bot_key" in
  let+ instance := py_getitem ident "instance_id" in
  let+ hostname := py_getitem ident "hostname" in
  let+ os := py_getitem ident "os" in
  let+ m := dict_or (JObj [("hostname", hostname); ("os", os)])
                    (if Machine.py_truthy meta then meta else JObj []) in
  Ret (JObj [("bot_key", bot_key); ("instance_id", instance);
             ("version", JStr (version settings));
             ("capabilities", capabilities); ("resources", resources);
             ("constraints", constraints); ("meta", m)]).

Definition register (self : t)
    (ident capabilities resources constraints meta : json) (out : NetOutcome)
  : res json * t :=
  match register_body ident capabilities resources constraints meta with
  | Raise e => (Raise e, self)
  | Ret _ =>
      match out with
      | NetError e => (Raise e, self)
      | NetResponse st (Raise e) => (Raise e, self)
      | NetResponse st (Ret data) =>
          if (st =? 200)%Z || (st =? 201)%Z then
            match (let+ auth := py_getitem data "auth" in
                   py_getitem auth "access_token") with
            | Raise e => (Raise e, self)
            | Ret token => (Ret data, mkClient token)
            end
          else (Raise (RuntimeError ("register failed: " +:+ pretty st +:+ " "
                                     +:+ fstr data)), self)
      end
  end.

End WithRepr.
End Client.

(** ** [machine.py]: the bot and its registration *)

Module Bot.
Section WithRepr.
Variable py_repr : json -> string.
Variable settings : Settings.

(** [asyncio.Semaphore(value)]: the value is kept as given, and a
    value below zero is refused. *)
Definition Semaphore (value : json) : res json :=
  match value with
  | JInt z =>
      if (z <? 0)%Z then Raise (ValueError "Semaphore initial value must be >= 0")
      else Ret value
  | JBool _ => Ret value
  | JFloat r =>
      if String.prefix "-" r && negb (String.eqb r "-0.0")
      then Raise (ValueError "Semaphore initial value must be >= 0")
      else Ret value
  | _ => Raise (TypeError ("'<' not supported between instances of '"
                           +:+ type_name value +:+ "' and 'int'"))
  end.

(** A [Scheduler] as its constructor leaves it. *)
Record SchedulerObj : Type := mkSchedulerObj {
  fields : Scheduler.t;
  sem_value : json;
}.

(** [Scheduler(api, bot_id, instance_id, assignment_ops, max_conc)] *)
Definition new_scheduler (bot_id instance_id assignment_ops max_conc : json)
  : res SchedulerObj :=
  let+ v := Semaphore max_conc in
  Ret (mkSchedulerObj (Scheduler.mkScheduler bot_id instance_id assignment_ops) v).

(** [bot_id] is [JNull] for [None]. *)
Record t : Type := mkBot {
  ident : json;
  bot_id : json;
  assignment : json;
  api : Client.t;
  scheduler : option SchedulerObj;
}.

(** [Bot()] on the identity that [load_identity] returned. *)
Definition init (identity : json) : t :=
  mkBot identity JNull
        (JObj [("operations", JArr []);
               ("max_concurrency", JInt (max_concurrency settings))])
        Client.new None.

Definition _register (self : t) (out : NetOutcome) : res unit * t :=
  match py_getitem (assignment self) "operations" with
  | Raise e => (Raise e, self)
  | Ret ops0 =>
      let capabilities :=
        if Machine.py_truthy ops0 then ops0 else JArr [JStr "sum"; JStr "subtract"] in
      let '(r, api') :=
        Client.register py_repr settings (api self) (ident self) capabilities
          (JObj [("cpu_cores", JInt 2); ("mem_mb", JInt 1024)])
          (JObj []) (JObj []) out in
      let s0 := mkBot (ident self) (bot_id self) (assignment self) api'
                      (scheduler self) in
      match r with
      | Raise e => (Raise e, s0)
      | Ret data =>
          match py_getitem data "bot_id" with
          | Raise e => (Raise e, s0)
          | Ret bid =>
              let s1 := mkBot (ident self) bid (assignment self) api'
                              (scheduler self) in
              match py_get data "assignment" (assignment self) with
              | Raise e => (Raise e, s1)
              | Ret asg =>
                  let s2 := mkBot (ident self) bid asg api' (scheduler self) in
                  match (let+ instance := py_getitem (ident self) "instance_id" in
                         let+ ops := py_getitem asg "operations" in
                         let+ max_conc := py_getitem asg "max_concurrency" in
                         new_scheduler bid instance ops max_conc) with
                  | Raise e => (Raise e, s2)
                  | Ret so => (Ret tt, mkBot (ident self) bid asg api' (Some so))
                  end
              end
          end
      end
  end.

End WithRepr.
End Bot.

(** ** More scenarios *)

Module Cases.
Import MiniJson.

Definition quiet : World := Scenario.world0 None Scenario.disk_ok (Scenario.script []).

(** Three entries wait and every report is accepted. *)
Definition all_accepted : World :=
  Scenario.world0 Scenario.three_pending Scenario.disk_ok (Scenario.script []).

(** The outbox holds one line that is no JSON. *)
Definition broken_line : string := "not json at all".
Definition corrupt : World :=
  Scenario.world0 (Some (broken_line +:+ newline)) Scenario.disk_ok (Scenario.script []).

(** The first entry of the outbox has no [job_id]. *)
Definition headless : json :=
  JObj [("action", JStr "complete"); ("payload", JObj [])].
Definition poisoned : World :=
  Scenario.world0 (Some (Scenario.line headless +:+ Scenario.line Scenario.e1))
                  Scenario.disk_ok (Scenario.script []).

(** Three jobs are claimed by a scheduler that has one permit; the
    heartbeat brings five more while the loop waits for the first. *)
Definition busy : World :=
  Scenario.world0 None Scenario.disk_ok
    (Scenario.script [Scenario.claim_of [Scenario.raw_job "a" 1 1;
                                         Scenario.raw_job "b" 2 2;
                                         Scenario.raw_job "c" 3 3]]).

Definition busy_steps : list Machine.Step :=
  [Machine.DoTick; Machine.DoSpawn; Machine.DoSpawn].

Definition waiting : Machine.Sys :=
  default (Machine.init busy Scenario.self 1)
          (Machine.run Scenario.registry default_settings
             (busy_steps ++ [Machine.DoAssign (JArr [JStr "sum"]) 5])
             (Machine.init busy Scenario.self 1)).

(** The run loop has claimed two jobs and is about to create their
    tasks, with two permits. *)
Definition claimed : Machine.Sys :=
  default (Machine.init Scenario.reassigned Scenario.self 2)
          (Machine.run Scenario.registry default_settings [Machine.DoTick]
             (Machine.init Scenario.reassigned Scenario.self 2)).

Definition identity : json := JObj Scenario.identity_fields.

Definition created : NetOutcome :=
  NetResponse 201
    (Ret (JObj [("bot_id", JStr "bot_123");
                ("auth", JObj [("access_token", JStr "new-token")]);
                ("assignment", JObj [("operations", JArr [JStr "sum"]);
                                     ("max_concurrency", JInt 2)])])).

Definition rejected : NetOutcome :=
  NetResponse 400 (Ret (JObj [("error", JStr "invalid_version")])).

(** [str()] of the body of [rejected]. *)
Definition repr : json -> string := fun _ => "{'error': 'invalid_version'}".

End Cases.

Ltac settle :=
  first [ reflexivity
        | (intros; reflexivity)
        | (vm_compute; reflexivity)
        | (simpl; lia)
        | parsed_lines
        | (repeat (apply Forall_cons_2; [vm_compute; reflexivity|]);
           apply Forall_nil_2)
        | (vm_compute; discriminate)
        | (let k := fresh "k" in
           let Hk := fresh "Hk" in
           intros k Hk;
           do 4 (destruct k as [|k]; [first [reflexivity | simpl in Hk; lia]|]);
           simpl in Hk; lia) ].

(** * Properties *)

(** ** The outbox *)

Section OutboxFacts.
Context `{JsonLib}.

Lemma loads_all_ret (lines : list string) (items : list json) :
  Outbox.loads_all lines = Ret items <->
  Forall2 (fun l v => json_loads l = Ret v) lines items.
Proof.
  revert items. induction lines as [|l ls IH]; intros items; simpl.
  - split.
    + intros [= <-]. constructor.
    + intros Hf. inversion Hf. reflexivity.
  - split.
    + destruct (json_loads l) as [v|e] eqn:Hl; simpl; [|discriminate].
      destruct (Outbox.loads_all ls) as [vs|e] eqn:Hls; simpl; [|discriminate].
      intros [= <-]. constructor; [assumption|]. apply IH. reflexivity.
    + intros Hf. inversion Hf as [|? v ? vs Hl Hrest]; subst.
      rewrite Hl. simpl. apply IH in Hrest. rewrite Hrest. reflexivity.
Qed.

Lemma loads_all_raise (lines : list string) (l : string) (e : exn) :
  l ∈ lines -> json_loads l = Raise e ->
  exists e', Outbox.loads_all lines = Raise e'.
Proof.
  induction lines as [|l0 ls IH]; intros Hin Hl.
  - inversion Hin.
  - simpl. destruct (json_loads l0) as [v|e0] eqn:H0; simpl; [|eauto].
    apply elem_of_cons in Hin as [->|Hin]; [congruence|].
    destruct (IH Hin Hl) as [e' ->]. simpl. eauto.
Qed.

Lemma py_slice_to_nonneg {A} (items : list A) (m : Z) :
  (0 <= m)%Z -> py_slice_to items m = take (Z.to_nat m) items.
Proof.
  intros Hm. unfold py_slice_to.
  destruct (0 <=? m)%Z eqn:E; [reflexivity|]. apply Z.leb_gt in E. lia.
Qed.

(** C5. [drain] on an absent file returns the empty list and leaves the
    world alone.  On a present file it removes the file and, when every
    line parses, returns [items[:max_items]] of the parsed lines, which
    for a count [max_items] are the first [max_items] of them in file
    order; when some line does not parse it raises, and the file is
    gone all the same. *)
Theorem drain_spec (max_items : Z) (w : World) :
  (outbox_file w = None -> Outbox.drain max_items w = (Ret [], w)) /\
  (forall text, outbox_file w = Some text ->
     outbox_file (Outbox.with_outbox None w) = None /\
     (forall items,
        Forall2 (fun l v => json_loads l = Ret v) (splitlines text) items ->
        Outbox.drain max_items w
          = (Ret (py_slice_to items max_items), Outbox.with_outbox None w) /\
        ((0 <= max_items)%Z ->
         py_slice_to items max_items = take (Z.to_nat max_items) items /\
         (Z.of_nat (length (py_slice_to items max_items)) <= max_items)%Z)) /\
     (forall l e,
        l ∈ splitlines text -> json_loads l = Raise e ->
        exists e', Outbox.drain max_items w
                   = (Raise e', Outbox.with_outbox None w))).
Proof.
  split.
  - intros Hnone. unfold Outbox.drain. rewrite Hnone. reflexivity.
  - intros text Hsome. split; [reflexivity|]. split.
    + intros items Hall. apply loads_all_ret in Hall.
      unfold Outbox.drain. rewrite Hsome, Hall. split; [reflexivity|].
      intros Hm. rewrite (py_slice_to_nonneg _ _ Hm). split; [reflexivity|].
      rewrite length_take. lia.
    + intros l e Hin Hl. destruct (loads_all_raise _ _ _ Hin Hl) as [e' He'].
      exists e'. unfold Outbox.drain. rewrite Hsome, He'. reflexivity.
Qed.

(** C10. When the file holds more lines than [max_items], [drain]
    removes the whole file and returns only the first [max_items]
    entries: the entries after them are in neither place, and the next
    [drain] finds nothing. *)
Theorem drain_discards_beyond_cap (max_items : Z) (w : World)
    (text : string) (items : list json) :
  (0 <= max_items)%Z ->
  outbox_file w = Some text ->
  Forall2 (fun l v => json_loads l = Ret v) (splitlines text) items ->
  (max_items < Z.of_nat (length (splitlines text)))%Z ->
  exists kept lost w',
    Outbox.drain max_items w = (Ret kept, w') /\
    items = (kept ++ lost)%list /\
    Z.of_nat (length kept) = max_items /\
    lost <> [] /\
    outbox_file w' = None /\
    forall m, Outbox.drain m w' = (Ret [], w').
Proof.
  intros Hm Hsome Hall Hlen.
  pose proof (Forall2_length _ _ _ Hall) as Hlen2.
  exists (take (Z.to_nat max_items) items), (drop (Z.to_nat max_items) items),
         (Outbox.with_outbox None w).
  apply loads_all_ret in Hall.
  split; [|split; [|split; [|split; [|split]]]].
  - unfold Outbox.drain. rewrite Hsome, Hall.
    rewrite (py_slice_to_nonneg _ _ Hm). reflexivity.
  - symmetry. apply take_drop.
  - rewrite length_take. lia.
  - intros Hnil. apply (f_equal length) in Hnil.
    rewrite length_drop in Hnil. simpl in Hnil. lia.
  - reflexivity.
  - intros m. reflexivity.
Qed.

End OutboxFacts.

(** ** The dispatcher client *)

Section ApiFacts.
#[local] Existing Instance MiniJson.lib.

Lemma report_ignores_status (w : World) (st : Z) (body : res json)
    (job_id action payload : json) :
  net w (exchanges w) = NetResponse st body ->
  fst (Api.report job_id action payload w) = body.
Proof.
  intros Hnet. unfold Api.report, bind, Api.post, lift. rewrite Hnet. simpl.
  destruct body; reflexivity.
Qed.

(** C1. The server answers 503 with a JSON body to the report of a
    finished job: [report] returns that body like any other, so
    [_process_one] takes the report for delivered and writes nothing to
    the outbox. *)
Theorem report_returns_on_503 :
  let w := Scenario.world0 None Scenario.disk_ok
             (Scenario.script [Scenario.unavailable]) in
  fst (Api.report (JStr "job_1") (JStr "complete") Scenario.payload_1 w)
    = Ret (JObj [("error", JStr "timeout")]) /\
  Scheduler._process_one Scenario.registry Scenario.self Scenario.job_1 w
    = (Ret tt,
       mkWorld None Scenario.disk_ok Scenario.nothing_through 0
         (Scenario.script [Scenario.unavailable]) 1
         [EvHttp (PostReport (JStr "job_1") (JStr "complete") Scenario.payload_1)
                 Scenario.unavailable]).
Proof. split; vm_compute; reflexivity. Qed.

Lemma claim_run (w : World) (bot_id ops : json) (batch : Z) (st : Z) (data : json) :
  net w (exchanges w) = NetResponse st (Ret data) ->
  fst (Api.claim bot_id ops batch w) = py_get data "jobs" (JArr []).
Proof.
  intros Hnet. unfold Api.claim, bind, Api.post, lift. rewrite Hnet. reflexivity.
Qed.

(** C9. Whatever the status of the response, [claim] returns what
    [data.get("jobs", [])] gives on the decoded body [data]: for a body
    that decodes to an object, what the object has under [jobs], and
    the empty list when it has no such key. *)
Theorem claim_ignores_status (w : World) (bot_id ops : json) (batch : Z)
    (st : Z) (data : json) :
  net w (exchanges w) = NetResponse st (Ret data) ->
  fst (Api.claim bot_id ops batch w) = py_get data "jobs" (JArr []) /\
  (forall d, data = JObj d ->
     fst (Api.claim bot_id ops batch w)
       = Ret (default (JArr []) (dict_lookup "jobs" d))).
Proof.
  intros Hnet. split; [exact (claim_run w bot_id ops batch st data Hnet)|].
  intros d ->. rewrite (claim_run w bot_id ops batch st _ Hnet). simpl.
  destruct (dict_lookup "jobs" d); reflexivity.
Qed.

Lemma claim_ignores_status_witness :
  fst (Api.claim (JStr "bot_1") (JArr [JStr "sum"]) 5
         (Scenario.world0 None Scenario.disk_ok
            (Scenario.script [Scenario.unavailable])))
    = Ret (JArr []).
Proof.
  exact (proj2 (claim_ignores_status
                  (Scenario.world0 None Scenario.disk_ok
                     (Scenario.script [Scenario.unavailable]))
                  (JStr "bot_1") (JArr [JStr "sum"]) 5 503
                  (JObj [("error", JStr "timeout")]) eq_refl)
               [("error", JStr "timeout")] eq_refl).
Defined.

End ApiFacts.

(** ** The per-job pipeline *)

Section PipelineFacts.
Context `{JsonLib}.
Variable REGISTRY : gmap string Handler.
Variable settings : Settings.

(** What [_process_one] does with a job that decodes: one report call,
    and the outbox append exactly when that call raised. *)
Lemma process_one_run (self : Scheduler.t) (raw : json) (job : Job) (w : World) :
  Scheduler.decode raw = Ret job ->
  exists action payload,
    match Jobs.run_job REGISTRY job with
    | Ret result =>
        action = "complete" /\
        payload = JObj [("instance_id", Scheduler.instance_id self);
                        ("result", result)]
    | Raise e =>
        action = "fail" /\
        payload = JObj [("instance_id", Scheduler.instance_id self);
                        ("error", JStr (py_str_exn e))]
    end /\
    Scheduler._process_one REGISTRY self raw w =
      let w1 := snd (Api.post (PostReport (id job) (JStr action) payload) w) in
      if report_ok (net w (exchanges w)) then (Ret tt, w1)
      else Outbox.append (Scheduler.outbox_entry (id job) action payload) w1.
Proof.
  intros Hdec. unfold Scheduler._process_one, bind, lift. rewrite Hdec.
  destruct (Jobs.run_job REGISTRY job) as [result|e].
  - exists "complete", (JObj [("instance_id", Scheduler.instance_id self);
                              ("result", result)]).
    split; [split; reflexivity|].
    unfold try_except, bind, Api.report, bind, Api.post, lift, ret.
    destruct (net w (exchanges w)) as [x|st [v|x]]; reflexivity.
  - exists "fail", (JObj [("instance_id", Scheduler.instance_id self);
                          ("error", JStr (py_str_exn e))]).
    split; [split; reflexivity|].
    unfold try_except, bind, Api.report, bind, Api.post, lift, ret.
    destruct (net w (exchanges w)) as [x|st [v|x]]; reflexivity.
Qed.

Lemma succeeded_app (l1 l2 : list Event) :
  succeeded (l1 ++ l2) = (succeeded l1 ++ succeeded l2)%list.
Proof.
  induction l1 as [|ev l1 IH]; simpl; [reflexivity|].
  destruct ev as [[b o l|j a p] out|item written]; try exact IH.
  destruct (answered_2xx out); simpl; rewrite IH; reflexivity.
Qed.

Lemma appended_app (l1 l2 : list Event) :
  appended (l1 ++ l2) = (appended l1 ++ appended l2)%list.
Proof.
  induction l1 as [|ev l1 IH]; simpl; [reflexivity|].
  destruct ev as [[b o l|j a p] out|item written]; try exact IH.
  simpl. rewrite IH. reflexivity.
Qed.

(** C3. A job that decodes, and a server that answers its report with
    a status outside 2xx and a body that decodes.  [_process_one] makes
    its one report call, with action [complete] and the result when the
    handler returned and with action [fail] and the error text when it
    raised, takes the answer for a delivery and returns.  No report has
    succeeded, [outbox.append] is not called and the outbox file is as
    it was: the job is left without a terminal outcome. *)
Theorem process_one_no_outcome_on_non_2xx (self : Scheduler.t) (raw : json)
    (job : Job) (w : World) (st : Z) (data : json) :
  Scheduler.decode raw = Ret job ->
  net w (exchanges w) = NetResponse st (Ret data) ->
  is_2xx st = false ->
  exists action payload,
    match Jobs.run_job REGISTRY job with
    | Ret result =>
        action = "complete" /\
        payload = JObj [("instance_id", Scheduler.instance_id self);
                        ("result", result)]
    | Raise e =>
        action = "fail" /\
        payload = JObj [("instance_id", Scheduler.instance_id self);
                        ("error", JStr (py_str_exn e))]
    end /\
    Scheduler._process_one REGISTRY self raw w
      = (Ret tt,
         mkWorld (outbox_file w) (disk w) (reached w) (writes w) (net w)
           (S (exchanges w))
           (log w ++ [EvHttp (PostReport (id job) (JStr action) payload)
                             (NetResponse st (Ret data))])) /\
    let w' := snd (Scheduler._process_one REGISTRY self raw w) in
    succeeded (log w') = succeeded (log w) /\
    appended (log w') = appended (log w).
Proof.
  intros Hdec Hnet Hst.
  destruct (process_one_run self raw job w Hdec) as (action & payload & Hk & Hrun).
  exists action, payload. split; [exact Hk|].
  rewrite Hrun. cbv zeta. unfold Api.post. rewrite Hnet. simpl.
  split; [reflexivity|].
  rewrite succeeded_app, appended_app. simpl. rewrite Hst, !app_nil_r.
  split; reflexivity.
Qed.

Lemma delivered_app (l1 l2 : list Event) :
  delivered (l1 ++ l2) = (delivered l1 ++ delivered l2)%list.
Proof.
  induction l1 as [|ev l1 IH]; simpl; [reflexivity|].
  destruct ev as [[b o l|j a p] out|item written]; try exact IH.
  destruct (report_ok out); simpl; rewrite IH; reflexivity.
Qed.

(** A running task ends: its slot takes the result of the pipeline,
    the semaphore [self.sem] names gets one more permit, and nothing
    else in the configuration moves. *)
Lemma run_guarded_step (s : Machine.Sys) (i : nat) (raw : json) (tk : nat)
    (c : Z) (v : nat) :
  Machine.tasks s !! i = Some (Machine.mkTask raw tk c Machine.Running) ->
  Machine.heap s !! Machine.sem s = Some v ->
  Machine._run_guarded REGISTRY i s =
    let p := Scheduler._process_one REGISTRY (Machine.sched s) raw (Machine.world s) in
    Some (Machine.mkSys (snd p) (<[Machine.sem s := S v]> (Machine.heap s))
            (Machine.sem s) (Machine.sched s) (Machine.cap s)
            (<[i := Machine.mkTask raw tk c (Machine.Done (fst p))]> (Machine.tasks s))
            (Machine.pc s) (Machine.ticks s) (Machine.outcomes s)).
Proof.
  intros Ht Hv. unfold Machine._run_guarded. rewrite Ht, Hv. cbv zeta.
  destruct (Scheduler._process_one REGISTRY (Machine.sched s) raw (Machine.world s)).
  reflexivity.
Qed.

Lemma unfinished_blocks_join (s : Machine.Sys) (i : nat) (t : Machine.Task) :
  Machine.tasks s !! i = Some t ->
  Machine.of_tick (Machine.ticks s) t = true ->
  Machine.finished_well t = false ->
  Machine.join s = None.
Proof.
  intros Ht Htick Hbad. unfold Machine.join.
  destruct (Machine.pc s); try reflexivity.
  destruct (forallb _ _) eqn:Hall; [|reflexivity].
  exfalso. apply Is_true_true, forallb_True in Hall.
  rewrite Forall_forall in Hall.
  assert (Hin : t ∈ filter (fun t => Machine.of_tick (Machine.ticks s) t = true)
                         (Machine.tasks s)).
  { apply list_elem_of_filter. split; [exact Htick|].
    apply list_elem_of_lookup. eauto. }
  apply Hall in Hin. apply Is_true_true in Hin. congruence.
Qed.

Lemma tick_ready (s : Machine.Sys) :
  Machine.pc s = Machine.Idle -> is_Some (Machine.tick settings s).
Proof.
  intros Hpc. unfold Machine.tick. rewrite Hpc.
  destruct (Machine.tick_begin settings (Machine.sched s) (Machine.world s))
    as [[[|j js]|x] w1]; eauto.
Qed.

(** C4, as the code has it.  A running task whose job decodes, whose
    report call raises and whose outbox append is refused by the disk.
    [_process_one] makes the one report call and the one append and
    raises the error of the append.  The report is not delivered and
    the outbox file holds what it held, followed by what reached the
    disk before the error: nothing more when the file could not be
    opened, and for an absent file that was opened an empty file or the
    beginning of the line.  [_run_guarded] lets the error through after
    it has released a permit; the other tasks and the place of the run
    loop are as they were. *)
Theorem outbox_error_leaves_pipeline (s : Machine.Sys) (i : nat) (raw : json)
    (job : Job) (tk : nat) (c : Z) (v : nat) :
  Machine.tasks s !! i = Some (Machine.mkTask raw tk c Machine.Running) ->
  Machine.heap s !! Machine.sem s = Some v ->
  Scheduler.decode raw = Ret job ->
  report_ok (net (Machine.world s) (exchanges (Machine.world s))) = false ->
  disk (Machine.world s) (writes (Machine.world s)) = false ->
  let w := Machine.world s in
  let boom : res unit := Raise (OSError "write failed") in
  fst (Scheduler._process_one REGISTRY (Machine.sched s) raw w) = boom /\
  exists s' action payload,
    let entry := Scheduler.outbox_entry (id job) action payload in
    let w' := Machine.world s' in
    Machine._run_guarded REGISTRY i s = Some s' /\
    Machine.tasks s' !! i = Some (Machine.mkTask raw tk c (Machine.Done boom)) /\
    Machine.heap s' !! Machine.sem s' = Some (S v) /\
    log w' = (log w ++ [EvHttp (PostReport (id job) (JStr action) payload)
                               (net w (exchanges w));
                        EvAppend entry false])%list /\
    delivered (log w') = delivered (log w) /\
    outbox_file w'
      = match reached w (writes w) with
        | None => outbox_file w
        | Some n => Some (default "" (outbox_file w)
                          +:+ substring 0 n (json_dumps entry +:+ newline))
        end /\
    (forall j, j <> i -> Machine.tasks s' !! j = Machine.tasks s !! j) /\
    Machine.pc s' = Machine.pc s.
Proof.
  intros Ht Hv Hdec Hnet Hdisk w boom. subst w.
  set (w := Machine.world s) in *.
  destruct (process_one_run (Machine.sched s) raw job w Hdec)
    as (action & payload & _ & Hrun).
  rewrite Hnet in Hrun. cbv zeta in Hrun.
  pose (entry := Scheduler.outbox_entry (id job) action payload).
  assert (Hp : Scheduler._process_one REGISTRY (Machine.sched s) raw w
               = (boom,
                  mkWorld
                    (match reached w (writes w) with
                     | None => outbox_file w
                     | Some n => Some (default "" (outbox_file w)
                                       +:+ substring 0 n (json_dumps entry +:+ newline))
                     end)
                    (disk w) (reached w) (S (writes w)) (net w) (S (exchanges w))
                    ((log w ++ [EvHttp (PostReport (id job) (JStr action) payload)
                                       (net w (exchanges w))])
                     ++ [EvAppend entry false]))).
  { rewrite Hrun. unfold Outbox.append, Api.post.
    destruct (net w (exchanges w)); simpl; fold w; rewrite Hdisk; reflexivity. }
  split; [rewrite Hp; reflexivity|].
  pose proof (lookup_lt_Some _ _ _ Ht) as Hi.
  pose proof (lookup_lt_Some _ _ _ Hv) as Hs.
  eexists. exists action, payload.
  split; [rewrite (run_guarded_step s i raw tk c v Ht Hv); fold w; rewrite Hp; reflexivity|].
  simpl. split; [apply list_lookup_insert_eq; exact Hi|].
  split; [apply list_lookup_insert_eq; exact Hs|].
  split; [rewrite <- app_assoc; reflexivity|].
  split.
  { rewrite !delivered_app. simpl. fold w.
    destruct (report_ok _) eqn:E; [congruence|]. rewrite !app_nil_r. reflexivity. }
  split; [reflexivity|].
  split; [intros j Hj; apply list_lookup_insert_ne; congruence|reflexivity].
Qed.

(** C7. A job that decodes and whose op names no registered handler:
    the report call carries action [fail] and the error text
    [No handler for op=<op>]; no other report is made; the pipeline
    returns as soon as the report or the outbox append goes through and
    never raises the handler error; and when the task ends that way the
    run loop stays where it is, the other tasks are left as they are,
    and [gather] has nothing of this task to re-raise. *)
Theorem missing_handler_is_job_failure (s : Machine.Sys) (i : nat) (raw : json)
    (job : Job) (name : string) (tk : nat) (c : Z) (v : nat) :
  Machine.tasks s !! i = Some (Machine.mkTask raw tk c Machine.Running) ->
  Machine.heap s !! Machine.sem s = Some v ->
  Scheduler.decode raw = Ret job ->
  op job = JStr name ->
  REGISTRY !! name = None ->
  let w := Machine.world s in
  let payload := JObj [("instance_id", Scheduler.instance_id (Machine.sched s));
                       ("error", JStr ("No handler for op=" +:+ name))] in
  let call := EvHttp (PostReport (id job) (JStr "fail") payload)
                     (net w (exchanges w)) in
  let r := fst (Scheduler._process_one REGISTRY (Machine.sched s) raw w) in
  let w' := snd (Scheduler._process_one REGISTRY (Machine.sched s) raw w) in
  (exists rest, log w' = (log w ++ call :: rest)%list /\ attempted rest = []) /\
  (report_ok (net w (exchanges w)) = true -> r = Ret tt) /\
  (disk w (writes w) = true -> r = Ret tt) /\
  (forall e, r = Raise e -> e = OSError "write failed") /\
  exists s',
    Machine._run_guarded REGISTRY i s = Some s' /\
    Machine.tasks s' !! i = Some (Machine.mkTask raw tk c (Machine.Done r)) /\
    Machine.pc s' = Machine.pc s /\
    (forall j, j <> i -> Machine.tasks s' !! j = Machine.tasks s !! j) /\
    (r = Ret tt -> Machine.join_raise i s' = None).
Proof.
  intros Ht Hv Hdec Hop Hreg w payload call r w'.
  destruct (process_one_run (Machine.sched s) raw job w Hdec)
    as (action & payload0 & Hk & Hrun).
  unfold Jobs.run_job in Hk. rewrite Hop in Hk. cbv beta iota in Hk.
  unfold Handler in *. rewrite Hreg in Hk. destruct Hk as [-> ->].
  fold payload in Hrun. cbv zeta in Hrun.
  pose proof (lookup_lt_Some _ _ _ Ht) as Hi.
  assert (Hlog : exists rest, log w' = (log w ++ call :: rest)%list /\ attempted rest = []).
  { subst w' call. rewrite Hrun. unfold Outbox.append, Api.post.
    destruct (net w (exchanges w)) as [x|st [b|x]]; simpl;
      try (exists []; split; reflexivity);
      destruct (disk w (writes w)); simpl;
      (eexists; split; [rewrite <- app_assoc; reflexivity|reflexivity]). }
  assert (Hr : (report_ok (net w (exchanges w)) = true -> r = Ret tt) /\
               (disk w (writes w) = true -> r = Ret tt) /\
               (forall e, r = Raise e -> e = OSError "write failed")).
  { subst r. rewrite Hrun. unfold Outbox.append, Api.post.
    destruct (net w (exchanges w)) as [x|st [b|x]]; simpl;
      try (repeat split; try reflexivity; discriminate);
      destruct (disk w (writes w)); simpl;
      repeat split; try reflexivity; try discriminate;
      intros e [= <-]; reflexivity. }
  split; [exact Hlog|]. destruct Hr as (Hr1 & Hr2 & Hr3).
  split; [exact Hr1|]. split; [exact Hr2|]. split; [exact Hr3|].
  eexists. split; [rewrite (run_guarded_step s i raw tk c v Ht Hv); reflexivity|].
  simpl. split; [apply list_lookup_insert_eq; exact Hi|].
  split; [reflexivity|].
  split; [intros j Hj; apply list_lookup_insert_ne; congruence|].
  intros Hret. unfold Machine.join_raise. simpl.
  rewrite list_lookup_insert_eq by exact Hi. fold w. fold r. rewrite Hret.
  destruct (Machine.pc s); reflexivity.
Qed.

End PipelineFacts.

(** ** Flushing the outbox *)

Section FlushFacts.
Context `{JsonLib}.

Lemma attempted_app (l1 l2 : list Event) :
  attempted (l1 ++ l2) = (attempted l1 ++ attempted l2)%list.
Proof.
  induction l1 as [|ev l1 IH]; simpl; [reflexivity|].
  destruct ev as [[b o l|j a p] out|item written]; try exact IH.
  simpl. rewrite IH. reflexivity.
Qed.

Lemma report_item_run (item : json) (req : Request) (w : World) :
  entry_request item = Some req ->
  snd (Scheduler.report_item item w) = snd (Api.post req w) /\
  is_ret (fst (Scheduler.report_item item w)) = report_ok (net w (exchanges w)).
Proof.
  unfold entry_request, Scheduler.report_item, bind, lift.
  destruct (py_getitem item "job_id") as [j|]; [|discriminate].
  destruct (py_getitem item "action") as [a|]; [|discriminate].
  destruct (py_getitem item "payload") as [p|]; [|discriminate].
  intros [= <-]. unfold Api.report, bind, Api.post, lift, ret.
  destruct (net w (exchanges w)) as [x|st [b|x]]; simpl; auto.
Qed.

Lemma entry_request_report (item : json) (req : Request) :
  entry_request item = Some req -> exists j a p, req = PostReport j a p.
Proof.
  unfold entry_request.
  destruct (py_getitem item "job_id"), (py_getitem item "action"),
    (py_getitem item "payload"); try discriminate.
  intros [= <-]. eauto.
Qed.



(** C2. Three entries wait in the outbox, the first report is accepted
    and the second raises.  The flush delivers the first, attempts the
    second, and leaves a file that holds the second alone: the third
    was not attempted and is neither on disk nor in memory, so the next
    drain returns one entry where two are due. *)
Theorem flush_loses_entries_after_failure :
  let w' := snd (Scheduler.flush_outbox (H := MiniJson.lib) Scenario.flaky_flush) in
  delivered (log w') = [PostReport (JStr "job_1") (JStr "complete")
                          (JObj [("instance_id", JStr "inst_1");
                                 ("result", JObj [("result", JInt 1)])])] /\
  length (attempted (log w')) = 2 /\
  outbox_file w' = Some (Scenario.line Scenario.e2) /\
  fst (Outbox.drain (H := MiniJson.lib) Outbox.default_max_items w')
    = Ret [Scenario.e2] /\
  fst (Outbox.drain (H := MiniJson.lib) Outbox.default_max_items Scenario.flaky_flush)
    = Ret [Scenario.e1; Scenario.e2; Scenario.e3].
Proof. vm_compute. repeat split; reflexivity. Qed.

End FlushFacts.

(** ** Permits *)

Section MachineFacts.
Context `{JsonLib}.
Variable REGISTRY : gmap string Handler.
Variable settings : Settings.

Lemma length_filter_insert {A} (P : A -> Prop) `{forall x, Decision (P x)}
    (l : list A) (i : nat) (x y : A) :
  l !! i = Some x -> P x -> ~ P y ->
  S (length (filter P (<[i := y]> l))) = length (filter P l).
Proof.
  revert i. induction l as [|a l IH]; intros i Hl Hx Hy; [discriminate|].
  destruct i as [|i]; simpl in *.
  - injection Hl as ->. rewrite !filter_cons.
    destruct (decide (P x)); [|contradiction].
    destruct (decide (P y)); [contradiction|]. reflexivity.
  - rewrite !filter_cons. destruct (decide (P a)); simpl;
      rewrite (IH i Hl Hx Hy); reflexivity.
Qed.

Lemma in_flight_spawn (s : Machine.Sys) (t : Machine.Task) (ts : list Machine.Task) :
  Machine.is_running t = true ->
  length (filter (fun t => Machine.is_running t = true) (ts ++ [t])%list)
    = S (length (filter (fun t => Machine.is_running t = true) ts)).
Proof.
  intros Ht. rewrite filter_app, length_app, filter_cons.
  destruct (decide (Machine.is_running t = true)); [|contradiction].
  simpl. lia.
Qed.

Lemma step_balanced (n : nat) (e : Machine.Step) (s s' : Machine.Sys) :
  Machine.balanced n s ->
  Machine.is_assign e = false ->
  Machine.step REGISTRY settings e s = Some s' ->
  Machine.balanced n s'.
Proof.
  intros (Hsem & (v & Hheap & Hsum) & Hcap & Hcaps & Hblk) Hna Hstep.
  destruct e as [| |i| |i|o m]; simpl in Hstep; try discriminate.
  - (* tick *)
    unfold Machine.tick in Hstep. destruct (Machine.pc s); try discriminate.
    destruct (Machine.tick_begin settings (Machine.sched s) (Machine.world s))
      as [[[|j js]|x] w1]; injection Hstep as <-;
      (split; [exact Hsem|]; split; [exists v; split; assumption|];
       split; [exact Hcap|]; split; [exact Hcaps|]);
      simpl; intros pending target; discriminate.
  - (* one turn of the for loop *)
    unfold Machine.spawn in Hstep.
    destruct (Machine.pc s) as [|[|raw rest] blocked|] eqn:Hpc; try discriminate.
    assert (Htarget : default (Machine.sem s) blocked = 0).
    { destruct blocked as [t|]; simpl; [|exact Hsem]. eapply Hblk. reflexivity. }
    rewrite Htarget, Hheap in Hstep. simpl in Hstep.
    destruct v as [|v].
    + destruct blocked; [discriminate|]. injection Hstep as <-.
      split; [exact Hsem|]. split; [exists 0; split; [reflexivity|exact Hsum]|].
      split; [exact Hcap|]. split; [exact Hcaps|].
      simpl. intros pending target [= _ <-]. reflexivity.
    + injection Hstep as <-.
      split; [exact Hsem|]. split.
      { exists v. split; [reflexivity|]. unfold Machine.in_flight in *. simpl.
        rewrite (in_flight_spawn s) by reflexivity. lia. }
      split; [exact Hcap|]. split.
      { simpl. apply Forall_app. split; [exact Hcaps|].
        constructor; [exact Hcap|constructor]. }
      simpl. intros pending target Hp. destruct rest; discriminate.
  - (* a task ends *)
    unfold Machine._run_guarded in Hstep.
    destruct (Machine.tasks s !! i) as [[raw tk c [|r]]|] eqn:Ht; try discriminate.
    destruct (Scheduler._process_one REGISTRY (Machine.sched s) raw (Machine.world s))
      as [r w1].
    rewrite Hsem, Hheap in Hstep. simpl in Hstep. injection Hstep as <-.
    split; [reflexivity|]. split.
    { exists (S v). split; [reflexivity|]. unfold Machine.in_flight in *. simpl.
      pose proof (length_filter_insert (fun t => Machine.is_running t = true)
                    (Machine.tasks s) i _
                    (Machine.mkTask raw tk c (Machine.Done r)) Ht) as Hlen.
      simpl in Hlen. specialize (Hlen eq_refl ltac:(discriminate)). lia. }
    split; [exact Hcap|]. split.
    { simpl. apply Forall_insert; [exact Hcaps|].
      rewrite Forall_lookup in Hcaps. exact (Hcaps i _ Ht). }
    exact Hblk.
  - (* gather returns *)
    unfold Machine.join in Hstep. destruct (Machine.pc s); try discriminate.
    destruct (forallb _ _); [|discriminate]. injection Hstep as <-.
    split; [exact Hsem|]. split; [exists v; split; assumption|].
    split; [exact Hcap|]. split; [exact Hcaps|].
    simpl. intros pending target; discriminate.
  - (* gather re-raises *)
    unfold Machine.join_raise in Hstep. destruct (Machine.pc s); try discriminate.
    destruct (Machine.tasks s !! i) as [[raw tk c [|[u|x]]]|]; try discriminate.
    destruct (Nat.eqb tk (Machine.ticks s)); [|discriminate].
    injection Hstep as <-.
    split; [exact Hsem|]. split; [exists v; split; assumption|].
    split; [exact Hcap|]. split; [exact Hcaps|].
    simpl. intros pending target; discriminate.
Qed.

Lemma init_balanced (w : World) (sc : Scheduler.t) (n : nat) :
  Machine.balanced n (Machine.init w sc n).
Proof.
  split; [reflexivity|]. split; [exists n; split; [reflexivity|unfold Machine.in_flight; simpl; lia]|].
  split; [reflexivity|]. split; [constructor|]. simpl; discriminate.
Qed.

(** X8. As long as the heartbeat installs no assignment, the tasks in
    flight never outnumber the permits the scheduler was built with,
    whatever the order in which the tasks run and end. *)
Lemma bounded_without_reassignment (w : World) (sc : Scheduler.t) (n : nat)
    (es : list Machine.Step) (s : Machine.Sys) :
  forallb (fun e => negb (Machine.is_assign e)) es = true ->
  Machine.run REGISTRY settings es (Machine.init w sc n) = Some s ->
  Machine.in_flight s <= n /\
  Forall (fun t => Machine.t_cap t = Z.of_nat n) (Machine.tasks s).
Proof.
  intros Hes Hrun.
  assert (Hbal : Machine.balanced n s).
  { pose proof (init_balanced w sc n) as Hinit.
    revert Hes Hrun Hinit. generalize (Machine.init w sc n) as s0.
    induction es as [|e es IH]; intros s0 Hes Hrun Hinit; simpl in *.
    - injection Hrun as <-. exact Hinit.
    - apply andb_prop in Hes as [He Hes].
      destruct (Machine.step REGISTRY settings e s0) as [s1|] eqn:Hstep;
        [|discriminate].
      apply (IH s1 Hes Hrun).
      eapply step_balanced; eauto. destruct (Machine.is_assign e); [discriminate|reflexivity]. }
  destruct Hbal as (_ & (v & _ & Hsum) & _ & Hcaps & _). split; [lia|exact Hcaps].
Qed.

(** [tick] returns only when every task it created has returned. *)
Lemma join_waits (s s' : Machine.Sys) (i : nat) (t : Machine.Task) :
  Machine.join s = Some s' ->
  Machine.tasks s !! i = Some t ->
  Machine.t_tick t = Machine.ticks s ->
  Machine.is_running t = false.
Proof.
  intros Hjoin Ht Htick.
  destruct (Machine.is_running t) eqn:Hrun; [|reflexivity].
  rewrite (unfinished_blocks_join s i t Ht) in Hjoin; [discriminate| |].
  - unfold Machine.of_tick. rewrite Htick. apply Nat.eqb_refl.
  - unfold Machine.finished_well. unfold Machine.is_running in Hrun.
    destruct (Machine.t_state t); [reflexivity|discriminate].
Qed.

(** C6. Two tasks run under two permits when the heartbeat installs an
    assignment with [max_concurrency] 1.  Each of them releases, in its
    [finally], the semaphore that [self.sem] names by then, which is the
    new one: it ends up with three permits.  The next tick then has
    three tasks in flight, every one of which got its permit while
    [max_concurrency] was 1. *)
Theorem permits_leak_into_new_semaphore :
  exists s,
    Machine.run (H := MiniJson.lib) Scenario.registry default_settings
      Scenario.reassigned_steps
      (Machine.init Scenario.reassigned Scenario.self 2) = Some s /\
    Machine.cap s = 1%Z /\
    Machine.in_flight s = 3 /\
    Forall (fun t => Machine.is_running t = true -> Machine.t_cap t = 1%Z)
           (Machine.tasks s).
Proof.
  eexists. split; [vm_compute; reflexivity|].
  split; [reflexivity|]. split; [vm_compute; reflexivity|].
  simpl. repeat (apply Forall_cons_2; [cbv; intros Hrun; congruence|]).
  apply Forall_nil_2.
Qed.

End MachineFacts.

(** ** Identity *)

Section IdentityFacts.
Context `{JsonLib}.

Lemma dict_lookup_set_eq (k : string) (v : json) (d : list (string * json)) :
  dict_lookup k (dict_set k v d) = Some v.
Proof.
  induction d as [|[k' v'] d IH]; simpl.
  - rewrite String.eqb_refl. reflexivity.
  - destruct (String.eqb k k') eqn:E; simpl; rewrite E; [reflexivity|exact IH].
Qed.

Lemma dict_lookup_set_ne (k k' : string) (v : json) (d : list (string * json)) :
  k' <> k -> dict_lookup k' (dict_set k v d) = dict_lookup k' d.
Proof.
  intros Hne. induction d as [|[k0 v0] d IH]; simpl.
  - apply String.eqb_neq in Hne. rewrite Hne. reflexivity.
  - destruct (String.eqb k k0) eqn:E; simpl.
    + apply String.eqb_eq in E. subst k0.
      apply String.eqb_neq in Hne. rewrite Hne. reflexivity.
    + rewrite IH. reflexivity.
Qed.

(** C8. On an identity file that parses to an object, [rotate] returns
    that object with [instance_id] set to the uuid drawn and every
    other field, [bot_key], [hostname] and [os] among them, as it was;
    the file then holds the serialisation of the returned object, and
    loading it gives the same object back. *)
Theorem rotate_replaces_only_instance_id (h : Identity.Host) (e : Identity.Env)
    (text : string) (d : list (string * json)) :
  Identity.identity_file e = Some text ->
  json_loads text = Ret (JObj d) ->
  let fresh := JStr (Identity.uuid4 h (Identity.uuids_drawn e)) in
  let d' := dict_set "instance_id" fresh d in
  json_loads (json_dumps_indent2 (JObj d')) = Ret (JObj d') ->
  let e' := snd (Identity.rotate_instance_id h e) in
  fst (Identity.rotate_instance_id h e) = Ret (JObj d') /\
  dict_lookup "instance_id" d' = Some fresh /\
  (forall k, k <> "instance_id" -> dict_lookup k d' = dict_lookup k d) /\
  dict_lookup "bot_key" d' = dict_lookup "bot_key" d /\
  dict_lookup "hostname" d' = dict_lookup "hostname" d /\
  dict_lookup "os" d' = dict_lookup "os" d /\
  Identity.identity_file e' = Some (json_dumps_indent2 (JObj d')) /\
  Identity.load_identity h e' = (Ret (JObj d'), e').
Proof.
  intros Hfile Hload fresh d' Hround e'.
  assert (Hrot : Identity.rotate_instance_id h e
                 = (Ret (JObj d'),
                    Identity.mkEnv (Some (json_dumps_indent2 (JObj d')))
                                   (S (Identity.uuids_drawn e)))).
  { unfold Identity.rotate_instance_id, Identity.load_identity.
    rewrite Hfile, Hload. reflexivity. }
  subst e'. rewrite Hrot. simpl.
  split; [reflexivity|]. split; [apply dict_lookup_set_eq|].
  split; [intros k Hk; apply dict_lookup_set_ne; exact Hk|].
  split; [apply dict_lookup_set_ne; discriminate|].
  split; [apply dict_lookup_set_ne; discriminate|].
  split; [apply dict_lookup_set_ne; discriminate|].
  split; [reflexivity|].
  unfold Identity.load_identity. simpl. rewrite Hround. reflexivity.
Qed.

End IdentityFacts.

(** ** The scenarios, run *)

Section Scenarios.
#[local] Existing Instance MiniJson.lib.

Lemma drain_spec_witness :
  let w := Scenario.world0 Scenario.three_pending Scenario.disk_ok (Scenario.script []) in
  Outbox.drain 2 w
    = (Ret [Scenario.e1; Scenario.e2], Outbox.with_outbox None w).
Proof.
  intros w.
  destruct (drain_spec 2 w) as [_ Hsome].
  destruct (Hsome _ eq_refl) as (_ & Hparsed & _).
  destruct (Hparsed [Scenario.e1; Scenario.e2; Scenario.e3]) as [Hdrain Hcut].
  { parsed_lines. }
  destruct (Hcut ltac:(lia)) as [Htake _].
  rewrite Hdrain, Htake. reflexivity.
Defined.

Lemma drain_discards_beyond_cap_witness :
  let w := Scenario.world0 Scenario.three_pending Scenario.disk_ok (Scenario.script []) in
  exists kept lost w',
    Outbox.drain 2 w = (Ret kept, w') /\
    [Scenario.e1; Scenario.e2; Scenario.e3] = (kept ++ lost)%list /\
    Z.of_nat (length kept) = 2%Z /\
    lost <> [] /\
    outbox_file w' = None /\
    forall m, Outbox.drain m w' = (Ret [], w').
Proof.
  intros w.
  apply (drain_discards_beyond_cap 2 w
           (Scenario.line Scenario.e1 +:+ Scenario.line Scenario.e2
            +:+ Scenario.line Scenario.e3)).
  - lia.
  - reflexivity.
  - parsed_lines.
  - vm_compute. reflexivity.
Defined.

Lemma process_one_no_outcome_on_non_2xx_witness :
  let w := Scenario.world0 None Scenario.disk_ok (Scenario.script [Scenario.unavailable]) in
  let w' := snd (Scheduler._process_one Scenario.registry Scenario.self Scenario.job_1 w) in
  log w' = [EvHttp (PostReport (JStr "job_1") (JStr "complete") Scenario.payload_1)
                   Scenario.unavailable] /\
  succeeded (log w') = [] /\
  appended (log w') = [] /\
  outbox_file w' = None.
Proof.
  intros w.
  destruct (process_one_no_outcome_on_non_2xx Scenario.registry Scenario.self
              Scenario.job_1 Scenario.decoded_1 w 503
              (JObj [("error", JStr "timeout")]) eq_refl eq_refl eq_refl)
    as (action & payload & Hkind & Hrun & Hs & Ha).
  vm_compute in Hkind. destruct Hkind as [-> ->].
  cbv zeta in Hs, Ha |- *. rewrite Hs, Ha, Hrun.
  repeat split; reflexivity.
Defined.

Lemma outbox_error_leaves_pipeline_witness :
  let w := Scenario.world0 None Scenario.disk_full (Scenario.script [Scenario.unreachable]) in
  fst (Scheduler._process_one Scenario.registry Scenario.self Scenario.job_1 w)
    = Raise (OSError "write failed").
Proof.
  intros w.
  exact (proj1 (outbox_error_leaves_pipeline Scenario.registry
                  (Scenario.one_running Scenario.job_1 w)
                  0 Scenario.job_1 Scenario.decoded_1 1 2 1
                  eq_refl eq_refl eq_refl eq_refl eq_refl)).
Defined.

(** C4 as stated fails.  Two jobs are claimed and their tasks created.
    The report of the first cannot reach the server and the disk
    refuses the write to the outbox: [_process_one] raises the error of
    the write instead of swallowing it, the task ends with it, and
    [gather], which cannot return, re-raises it out of [tick] while the
    other task is still running.  The result of the job is neither
    delivered nor in the outbox, which the refused write has left as an
    empty file. *)
Lemma outbox_error_not_swallowed :
  let boom : res unit := Raise (OSError "write failed") in
  let s0 := Machine.init Scenario.double_failure Scenario.self 2 in
  let started := [Machine.DoTick; Machine.DoSpawn; Machine.DoSpawn; Machine.DoFinish 0] in
  fst (Scheduler._process_one Scenario.registry Scenario.self Scenario.job_1
         (Scenario.world0 None Scenario.disk_full (Scenario.script [Scenario.unreachable])))
    = boom /\
  Machine.run Scenario.registry default_settings (started ++ [Machine.DoJoin]) s0 = None /\
  exists s,
    Machine.run Scenario.registry default_settings
      (started ++ [Machine.DoJoinRaise 0]) s0 = Some s /\
    map Machine.t_state (Machine.tasks s) = [Machine.Done boom; Machine.Running] /\
    Machine.outcomes s = [boom] /\
    Machine.pc s = Machine.Idle /\
    Machine.in_flight s = 1 /\
    log (Machine.world s)
      = [EvHttp (PostClaim (JStr "bot_1") (JArr [JStr "sum"]) 5)
                (Scenario.claim_of [Scenario.job_1; Scenario.raw_job "job_2" 3 4]);
         EvHttp (PostReport (JStr "job_1") (JStr "complete") Scenario.payload_1)
                Scenario.unreachable;
         EvAppend (Scenario.entry "job_1" 3) false] /\
    delivered (log (Machine.world s)) = [] /\
    outbox_file (Machine.world s) = Some "" /\
    is_Some (Machine.tick default_settings s).
Proof.
  intros boom s0 started. split; [vm_compute; reflexivity|].
  split; [vm_compute; reflexivity|].
  eexists. split; [vm_compute; reflexivity|].
  repeat split; try reflexivity. vm_compute. eauto.
Qed.

Lemma missing_handler_is_job_failure_witness :
  let w := Scenario.world0 None Scenario.disk_ok (Scenario.script [Scenario.accepted]) in
  exists rest,
    log (snd (Scheduler._process_one Scenario.registry Scenario.self
                Scenario.raw_unknown w))
      = (EvHttp (PostReport (JStr "job_9") (JStr "fail")
                   (JObj [("instance_id", JStr "inst_1");
                          ("error", JStr "No handler for op=multiply")]))
                Scenario.accepted :: rest) /\
    attempted rest = [].
Proof.
  intros w.
  exact (proj1 (missing_handler_is_job_failure Scenario.registry
                  (Scenario.one_running Scenario.raw_unknown w)
                  0 Scenario.raw_unknown Scenario.decoded_unknown "multiply" 1 2 1
                  eq_refl eq_refl eq_refl eq_refl eq_refl)).
Defined.

Lemma rotate_replaces_only_instance_id_witness :
  let e := Identity.mkEnv (Some Scenario.identity_text) 0 in
  fst (Identity.rotate_instance_id Scenario.host e)
    = Ret (JObj [("bot_key", JStr "keep-this-key"); ("instance_id", JStr "uuid-0");
                 ("hostname", JStr "host"); ("os", JStr "os")]) /\
  Identity.load_identity Scenario.host (snd (Identity.rotate_instance_id Scenario.host e))
    = (Ret (JObj [("bot_key", JStr "keep-this-key"); ("instance_id", JStr "uuid-0");
                  ("hostname", JStr "host"); ("os", JStr "os")]),
       snd (Identity.rotate_instance_id Scenario.host e)).
Proof.
  intros e.
  destruct (rotate_replaces_only_instance_id (H := MiniJson.lib)
              Scenario.host e Scenario.identity_text
              Scenario.identity_fields eq_refl
              ltac:(vm_compute; reflexivity) ltac:(vm_compute; reflexivity))
    as (Hret & _ & _ & _ & _ & _ & _ & Hload).
  split; [exact Hret|exact Hload].
Defined.

End Scenarios.

(** * Further properties *)

(** ** The outbox as a queue *)

Section QueueFacts.
Context `{JsonLib}.

Lemma string_app_cons (c : ascii) (a b : string) :
  String c a +:+ b = String c (a +:+ b).
Proof. reflexivity. Qed.

Lemma string_app_nil_l (s : string) : "" +:+ s = s.
Proof. reflexivity. Qed.

Lemma string_app_nil_r (s : string) : s +:+ "" = s.
Proof.
  induction s as [|c s IH]; [reflexivity|].
  rewrite string_app_cons, IH. reflexivity.
Qed.

Lemma string_app_assoc (a b c : string) : (a +:+ b) +:+ c = a +:+ (b +:+ c).
Proof.
  induction a as [|x a IH]; [reflexivity|].
  rewrite !string_app_cons, IH. reflexivity.
Qed.

Lemma splitlines_from_line (acc s rest : string) :
  no_linebreak s = true ->
  splitlines_from acc (s +:+ newline +:+ rest)
    = (acc +:+ s) :: splitlines_from "" rest.
Proof.
  revert acc. induction s as [|c s IH]; intros acc Hs.
  - rewrite string_app_nil_r, string_app_nil_l. unfold newline.
    rewrite string_app_cons, string_app_nil_l. simpl. destruct rest; reflexivity.
  - simpl in Hs. apply andb_prop in Hs as [Hc Hs].
    apply negb_true_iff in Hc. rewrite string_app_cons. simpl. rewrite Hc.
    rewrite (IH _ Hs), string_app_assoc. reflexivity.
Qed.

Lemma splitlines_file_of (items : list json) :
  Forall (fun a => no_linebreak (json_dumps a) = true) items ->
  splitlines (file_of items) = map json_dumps items.
Proof.
  unfold splitlines. induction 1 as [|a items Ha _ IH]; simpl; [reflexivity|].
  rewrite (splitlines_from_line "" _ _ Ha). simpl. rewrite IH. reflexivity.
Qed.

Lemma loads_all_dumps (items : list json) :
  Forall (fun a => json_loads (json_dumps a) = Ret a) items ->
  Outbox.loads_all (map json_dumps items) = Ret items.
Proof.
  induction 1 as [|a items Ha _ IH]; simpl; [reflexivity|].
  rewrite Ha. simpl. rewrite IH. reflexivity.
Qed.

(** What a run of appends leaves, when the disk takes every write. *)
Lemma append_all_run (items : list json) (w : World) :
  (forall k, k < length items -> disk w (writes w + k) = true) ->
  append_all items w
    = (Ret tt,
       mkWorld (match items with
                | [] => outbox_file w
                | _ => Some (default "" (outbox_file w) +:+ file_of items)
                end)
               (disk w) (reached w) (writes w + length items) (net w) (exchanges w)
               (log w ++ map (fun a => EvAppend a true) items)).
Proof.
  revert w. induction items as [|a items IH]; intros w Hdisk.
  - simpl. unfold ret. rewrite Nat.add_0_r, app_nil_r. destruct w; reflexivity.
  - simpl. unfold bind, Outbox.append.
    pose proof (Hdisk 0 ltac:(simpl; lia)) as H0. rewrite Nat.add_0_r in H0.
    rewrite H0. rewrite IH.
    + simpl. f_equal. f_equal.
      * destruct items; simpl.
        -- rewrite string_app_nil_r. reflexivity.
        -- rewrite !string_app_assoc. reflexivity.
      * lia.
      * rewrite <- app_assoc. reflexivity.
    + simpl. intros k Hk. rewrite <- Nat.add_succ_r. apply Hdisk. simpl. lia.
Qed.

(** X1. Entries appended one after the other to an absent outbox come
    back from the next [drain] in the order of the appends, and the
    file is gone after it. *)
Theorem outbox_fifo (items : list json) (max_items : Z) (w : World) :
  outbox_file w = None ->
  (forall k, k < length items -> disk w (writes w + k) = true) ->
  Forall (fun a => json_loads (json_dumps a) = Ret a) items ->
  Forall (fun a => no_linebreak (json_dumps a) = true) items ->
  (Z.of_nat (length items) <= max_items)%Z ->
  let w1 := snd (append_all items w) in
  fst (append_all items w) = Ret tt /\
  fst (Outbox.drain max_items w1) = Ret items /\
  outbox_file (snd (Outbox.drain max_items w1)) = None.
Proof.
  intros Hnone Hdisk Hround Hlines Hmax. cbv zeta.
  rewrite (append_all_run items w Hdisk). simpl. split; [reflexivity|].
  destruct items as [|a items].
  - unfold Outbox.drain. simpl. rewrite Hnone. simpl. auto.
  - unfold Outbox.drain. cbn [outbox_file]. rewrite Hnone. cbn [default].
    change ("" +:+ file_of (a :: items)) with (file_of (a :: items)).
    rewrite (splitlines_file_of _ Hlines), (loads_all_dumps _ Hround).
    rewrite py_slice_to_nonneg by lia.
    rewrite take_ge by lia. split; reflexivity.
Qed.

End QueueFacts.

(** ** More on the flush and on the pipeline *)

Section MoreFlushFacts.
Context `{JsonLib}.
Variable REGISTRY : gmap string Handler.

Lemma flush_loop_all_ok (items : list json) (reqs : list Request) (w : World) :
  Forall2 (fun it r => entry_request it = Some r) items reqs ->
  (forall k, k < length items -> report_ok (net w (exchanges w + k)) = true) ->
  let w' := snd (Scheduler.flush_loop items w) in
  fst (Scheduler.flush_loop items w) = Ret tt /\
  outbox_file w' = outbox_file w /\
  writes w' = writes w /\
  exchanges w' = exchanges w + length items /\
  delivered (log w') = (delivered (log w) ++ reqs)%list /\
  attempted (log w') = (attempted (log w) ++ reqs)%list.
Proof.
  intros Hitems. revert w.
  induction Hitems as [|it rq items reqs Hit Hitems IH]; intros w Hok; cbv zeta.
  - simpl. rewrite Nat.add_0_r, !app_nil_r. repeat split; reflexivity.
  - simpl. destruct (report_item_run it rq w Hit) as [Hw Hr].
    destruct (entry_request_report it rq Hit) as (j & a & p & ->).
    pose proof (Hok 0 ltac:(simpl; lia)) as H0. rewrite Nat.add_0_r in H0.
    rewrite H0 in Hr.
    destruct (Scheduler.report_item it w) as [[u|x] w1] eqn:Hrun;
      simpl in Hr, Hw; [|discriminate]. subst w1.
    specialize (IH (snd (Api.post (PostReport j a p) w))).
    unfold Api.post in IH |- *.
    destruct (net w (exchanges w)) as [y|st [b|y]] eqn:Hnet;
      simpl in H0; try discriminate.
    simpl in IH |- *.
    destruct IH as (Hr' & Hf & Hwr & Hex & Hd & Ha).
    + intros k Hk. rewrite <- Nat.add_succ_r. apply Hok. simpl. lia.
    + rewrite Hr', Hf, Hwr, Hex, Hd, Ha, !delivered_app, !attempted_app. simpl.
      rewrite <- !app_assoc. simpl. repeat split; try reflexivity. lia.
Qed.

(** X3. When the outbox holds at most the default cap of well-formed
    entries and every report is accepted, [flush_outbox] delivers them
    all in file order, writes nothing, and leaves no file. *)
Theorem flush_outbox_delivers_all (text : string) (items : list json)
    (reqs : list Request) (w : World) :
  outbox_file w = Some text ->
  Forall2 (fun l v => json_loads l = Ret v) (splitlines text) items ->
  length items <= 1000 ->
  Forall2 (fun it r => entry_request it = Some r) items reqs ->
  (forall k, k < length items -> report_ok (net w (exchanges w + k)) = true) ->
  let w' := snd (Scheduler.flush_outbox w) in
  fst (Scheduler.flush_outbox w) = Ret tt /\
  outbox_file w' = None /\
  writes w' = writes w /\
  delivered (log w') = (delivered (log w) ++ reqs)%list /\
  attempted (log w') = (attempted (log w) ++ reqs)%list.
Proof.
  intros Hfile Hlines Hlen Hitems Hok. cbv zeta.
  apply loads_all_ret in Hlines.
  unfold Scheduler.flush_outbox, bind, Outbox.drain. rewrite Hfile, Hlines.
  unfold Outbox.default_max_items.
  rewrite py_slice_to_nonneg by lia.
  rewrite take_ge by (change (Z.to_nat 1000) with 1000; exact Hlen).
  pose proof (flush_loop_all_ok items reqs (Outbox.with_outbox None w) Hitems Hok)
    as Hloop.
  cbv zeta in Hloop. destruct Hloop as (Hr & Hf & Hwr & _ & Hd & Ha).
  simpl in Hf, Hwr, Hd, Ha. repeat split; assumption.
Qed.

Lemma flush_loop_raise (items : list json) (w : World) (e : exn) :
  fst (Scheduler.flush_loop items w) = Raise e -> e = OSError "write failed".
Proof.
  revert w. induction items as [|item rest IH]; intros w; simpl.
  - discriminate.
  - destruct (Scheduler.report_item item w) as [[u|x] w1].
    + apply IH.
    + unfold Outbox.append. destruct (disk w1 (writes w1)); simpl.
      * discriminate.
      * intros [= <-]. reflexivity.
Qed.

(** X5. [flush_outbox] never lets the error of a report call out: when
    it raises, either [drain] raised on a line that does not parse, or
    the disk refused the write that puts the failed entry back. *)
Theorem flush_raises_only_on_disk_or_corruption (w : World) (e : exn) :
  fst (Scheduler.flush_outbox w) = Raise e ->
  (exists text, outbox_file w = Some text /\
                Outbox.loads_all (splitlines text) = Raise e) \/
  e = OSError "write failed".
Proof.
  unfold Scheduler.flush_outbox, bind, Outbox.drain.
  destruct (outbox_file w) as [text|] eqn:Hfile.
  - destruct (Outbox.loads_all (splitlines text)) as [items|x] eqn:Hload.
    + intros Hr. right. eapply flush_loop_raise. exact Hr.
    + simpl. intros [= <-]. left. eauto.
  - simpl. discriminate.
Qed.

Lemma report_item_malformed (item : json) (w : World) :
  entry_request item = None ->
  exists e, Scheduler.report_item item w = (Raise e, w).
Proof.
  unfold entry_request, Scheduler.report_item, bind, lift.
  destruct (py_getitem item "job_id") as [j|x]; [|eauto].
  destruct (py_getitem item "action") as [a|x]; [|eauto].
  destruct (py_getitem item "payload") as [p|x]; [discriminate|eauto].
Qed.

(** X6. An entry at the head of the outbox that lacks one of its three
    keys is never reported: the flush makes no HTTP call, writes that
    entry back as the only line of the file and drops the entries
    behind it. *)
Theorem malformed_entry_blocks_flush (text : string) (item : json)
    (rest : list json) (w : World) :
  outbox_file w = Some text ->
  Forall2 (fun l v => json_loads l = Ret v) (splitlines text) (item :: rest) ->
  length (item :: rest) <= 1000 ->
  entry_request item = None ->
  disk w (writes w) = true ->
  Scheduler.flush_outbox w
    = (Ret tt,
       mkWorld (Some (json_dumps item +:+ newline)) (disk w) (reached w)
               (S (writes w)) (net w) (exchanges w) (log w ++ [EvAppend item true])).
Proof.
  intros Hfile Hlines Hlen Hbad Hdisk.
  apply loads_all_ret in Hlines.
  unfold Scheduler.flush_outbox, bind, Outbox.drain. rewrite Hfile, Hlines.
  unfold Outbox.default_max_items.
  rewrite py_slice_to_nonneg by lia.
  rewrite take_ge by (change (Z.to_nat 1000) with 1000; exact Hlen).
  cbn [Scheduler.flush_loop].
  destruct (report_item_malformed item (Outbox.with_outbox None w) Hbad) as [e ->].
  unfold Outbox.append. simpl. rewrite Hdisk. reflexivity.
Qed.

(** X7. A raw job that is a dict without [id], [op] or [payload] makes
    [_process_one] raise the [KeyError] of the first of them that is
    missing, before any call: nothing is reported and nothing is
    written.  With the three keys the job decodes, and [lease_until] is
    [None] when the dict has none. *)
Theorem malformed_job_raises_before_any_call (self : Scheduler.t)
    (d : list (string * json)) (w : World) :
  (dict_mem "id" d && dict_mem "op" d && dict_mem "payload" d = false ->
   exists k, In k ["id"; "op"; "payload"] /\
             dict_lookup k d = None /\
             Scheduler._process_one REGISTRY self (JObj d) w = (Raise (KeyError k), w)) /\
  (dict_mem "id" d && dict_mem "op" d && dict_mem "payload" d = true ->
   exists job, Scheduler.decode (JObj d) = Ret job /\
               dict_lookup "id" d = Some (id job) /\
               dict_lookup "op" d = Some (op job) /\
               dict_lookup "payload" d = Some (payload job) /\
               lease_until job = default JNull (dict_lookup "lease_until" d)).
Proof.
  unfold dict_mem, Scheduler._process_one, Scheduler.decode, bind, lift. simpl.
  destruct (dict_lookup "id" d) as [i|] eqn:Hi; simpl.
  - destruct (dict_lookup "op" d) as [o|] eqn:Ho; simpl.
    + destruct (dict_lookup "payload" d) as [p|] eqn:Hp; simpl.
      * split; [discriminate|]. intros _.
        destruct (dict_lookup "lease_until" d) as [l|]; simpl;
          eexists; repeat split; reflexivity.
      * split; [|discriminate]. intros _. exists "payload". simpl. auto 6.
    + split; [|discriminate]. intros _. exists "op". simpl. auto 6.
  - split; [|discriminate]. intros _. exists "id". simpl. auto 6.
Qed.

(** X19. After [@op(name)] has decorated [fn], a job whose op is [name]
    is run by [fn], whatever was registered under that name before,
    and jobs with another op are run as before. *)
Theorem op_last_writer_wins (name : string) (fn : Handler) (job : Job) :
  op job = JStr name ->
  Jobs.run_job (Registry.op name fn REGISTRY) job = fn job /\
  (forall other job',
     op job' = JStr other -> other <> name ->
     Jobs.run_job (Registry.op name fn REGISTRY) job' = Jobs.run_job REGISTRY job').
Proof.
  intros Hop. unfold Jobs.run_job, Registry.op, Handler in *. split.
  - rewrite Hop. rewrite lookup_insert_eq. reflexivity.
  - intros other job' Hop' Hne. rewrite Hop'.
    rewrite lookup_insert_ne by congruence. reflexivity.
Qed.

(** X20. A job whose op is not a string reaches no handler: [run_job]
    raises, and what it raises does not depend on the registry. *)
Theorem run_job_needs_string_op (R1 R2 : gmap string Handler) (job : Job) :
  (forall name, op job <> JStr name) ->
  Jobs.run_job R1 job = Jobs.run_job R2 job /\
  is_ret (Jobs.run_job R1 job) = false.
Proof.
  intros Hop. unfold Jobs.run_job.
  destruct (op job) as [| | | |name| |]; try (split; reflexivity).
  exfalso. exact (Hop name eq_refl).
Qed.

End MoreFlushFacts.

(** ** More on permits and on the tick *)

Section MoreMachineFacts.
Context `{JsonLib}.
Variable REGISTRY : gmap string Handler.
Variable settings : Settings.

Lemma sum_list_insert (l : list nat) (i a b : nat) :
  l !! i = Some a -> sum_list (<[i := b]> l) + a = sum_list l + b.
Proof.
  revert i. induction l as [|x l IH]; intros i Hl; [discriminate|].
  destruct i as [|i]; simpl in *.
  - injection Hl as ->. lia.
  - specialize (IH i Hl). lia.
Qed.

Lemma step_permits (e : Machine.Step) (s s' : Machine.Sys) :
  Machine.step REGISTRY settings e s = Some s' ->
  permits s' = permits s + granted [e].
Proof.
  unfold permits, Machine.in_flight.
  destruct e as [| |i| |i|o m]; simpl; intros Hstep.
  - unfold Machine.tick in Hstep. destruct (Machine.pc s); try discriminate.
    destruct (Machine.tick_begin settings (Machine.sched s) (Machine.world s))
      as [[[|j js]|x] w1]; injection Hstep as <-; simpl; lia.
  - unfold Machine.spawn in Hstep.
    destruct (Machine.pc s) as [|[|raw rest] blocked|]; try discriminate.
    destruct (Machine.heap s !! default (Machine.sem s) blocked) as [[|v]|] eqn:Hv;
      try discriminate.
    + destruct blocked; [discriminate|]. injection Hstep as <-. simpl. lia.
    + injection Hstep as <-. simpl.
      rewrite (in_flight_spawn s) by reflexivity.
      pose proof (sum_list_insert _ _ _ v Hv). lia.
  - unfold Machine._run_guarded in Hstep.
    destruct (Machine.tasks s !! i) as [[raw tk c [|r]]|] eqn:Ht; try discriminate.
    destruct (Scheduler._process_one REGISTRY (Machine.sched s) raw (Machine.world s))
      as [r w1].
    destruct (Machine.heap s !! Machine.sem s) as [v|] eqn:Hv; [|discriminate].
    injection Hstep as <-. simpl.
    pose proof (sum_list_insert _ _ _ (S v) Hv).
    pose proof (length_filter_insert (fun t => Machine.is_running t = true)
                  (Machine.tasks s) i _
                  (Machine.mkTask raw tk c (Machine.Done r)) Ht) as Hlen.
    simpl in Hlen. specialize (Hlen eq_refl ltac:(discriminate)). lia.
  - unfold Machine.join in Hstep. destruct (Machine.pc s); try discriminate.
    destruct (forallb _ _); [|discriminate]. injection Hstep as <-. simpl. lia.
  - unfold Machine.join_raise in Hstep. destruct (Machine.pc s); try discriminate.
    destruct (Machine.tasks s !! i) as [[raw tk c [|[u|x]]]|]; try discriminate.
    destruct (Nat.eqb tk (Machine.ticks s)); [|discriminate].
    injection Hstep as <-. simpl. lia.
  - unfold Machine.heartbeat_assign in Hstep.
    destruct (0 <=? m)%Z; injection Hstep as <-; simpl; [|lia].
    rewrite sum_list_with_app. simpl. lia.
Qed.

Lemma run_permits (es : list Machine.Step) (s s' : Machine.Sys) :
  Machine.run REGISTRY settings es s = Some s' ->
  permits s' = permits s + granted es.
Proof.
  revert s. induction es as [|e es IH]; intros s Hrun; simpl in Hrun.
  - injection Hrun as <-. simpl. lia.
  - destruct (Machine.step REGISTRY settings e s) as [s1|] eqn:Hstep; [|discriminate].
    rewrite (IH _ Hrun), (step_permits _ _ _ Hstep).
    destruct e; simpl; lia.
Qed.

(** X9. Permits are neither lost nor made by the tasks: at any moment
    the permits held by the semaphores and by the running tasks are
    those the scheduler was built with plus those of the assignments
    installed since, so the tasks in flight never outnumber that sum. *)
Theorem permits_accounted (w : World) (sc : Scheduler.t) (n : nat)
    (es : list Machine.Step) (s : Machine.Sys) :
  Machine.run REGISTRY settings es (Machine.init w sc n) = Some s ->
  sum_list (Machine.heap s) + Machine.in_flight s = n + granted es /\
  Machine.in_flight s <= n + granted es.
Proof.
  intros Hrun. pose proof (run_permits _ _ _ Hrun) as Hp.
  unfold permits in Hp.
  change (Machine.in_flight (Machine.init w sc n)) with 0 in Hp.
  change (sum_list (Machine.heap (Machine.init w sc n))) with (n + 0) in Hp.
  split; lia.
Qed.

Lemma step_starved (old : nat) (e : Machine.Step) (s s' : Machine.Sys) :
  starved old s ->
  Machine.step REGISTRY settings e s = Some s' ->
  starved old s' /\
  Machine.pc s' = Machine.pc s /\
  Machine.ticks s' = Machine.ticks s /\
  Machine.outcomes s' = Machine.outcomes s /\
  length (Machine.tasks s') = length (Machine.tasks s).
Proof.
  intros ((pending & Hpc) & Hold & Hsem) Hstep.
  destruct e as [| |i| |i|o m]; simpl in Hstep.
  - unfold Machine.tick in Hstep. rewrite Hpc in Hstep. discriminate.
  - unfold Machine.spawn in Hstep. rewrite Hpc in Hstep.
    destruct pending as [|raw rest]; [discriminate|].
    simpl in Hstep. rewrite Hold in Hstep. discriminate.
  - unfold Machine._run_guarded in Hstep.
    destruct (Machine.tasks s !! i) as [[raw tk c [|r]]|] eqn:Ht; try discriminate.
    destruct (Scheduler._process_one REGISTRY (Machine.sched s) raw (Machine.world s))
      as [r w1].
    destruct (Machine.heap s !! Machine.sem s) as [v|] eqn:Hv; [|discriminate].
    injection Hstep as <-. unfold starved. simpl.
    rewrite list_lookup_insert_ne by exact Hsem. rewrite length_insert.
    repeat split; eauto.
  - unfold Machine.join in Hstep. rewrite Hpc in Hstep. discriminate.
  - unfold Machine.join_raise in Hstep. rewrite Hpc in Hstep. discriminate.
  - unfold Machine.heartbeat_assign in Hstep.
    pose proof (lookup_lt_Some _ _ _ Hold) as Hlt.
    destruct (0 <=? m)%Z; injection Hstep as <-; unfold starved; simpl.
    + rewrite lookup_app_l by exact Hlt. repeat split; eauto. lia.
    + repeat split; eauto.
Qed.

(** X10. Once the [for] loop of [tick] waits on a semaphore without
    permits and the heartbeat has replaced that semaphore, the tick
    never goes on: the tasks that end release the new semaphore, so
    whatever happens next the loop waits at the same place, no task is
    created, no tick ends and none starts. *)
Theorem replaced_semaphore_starves_tick (old : nat) (es : list Machine.Step)
    (s s' : Machine.Sys) :
  starved old s ->
  Machine.run REGISTRY settings es s = Some s' ->
  starved old s' /\
  Machine.pc s' = Machine.pc s /\
  Machine.ticks s' = Machine.ticks s /\
  Machine.outcomes s' = Machine.outcomes s /\
  length (Machine.tasks s') = length (Machine.tasks s).
Proof.
  revert s. induction es as [|e es IH]; intros s Hst Hrun; simpl in Hrun.
  - injection Hrun as <-. auto.
  - destruct (Machine.step REGISTRY settings e s) as [s1|] eqn:Hstep; [|discriminate].
    destruct (step_starved old e s s1 Hst Hstep) as (Hst1 & Hpc & Htk & Hout & Hlen).
    destruct (IH s1 Hst1 Hrun) as (Hst' & Hpc' & Htk' & Hout' & Hlen').
    split; [exact Hst'|]. repeat split; congruence.
Qed.

Lemma tick_begin_absent (sc : Scheduler.t) (w : World) :
  outbox_file w = None ->
  Machine.tick_begin settings sc w
    = (let* jobs := Api.claim (Scheduler.bot_id sc) (Scheduler.ops sc)
                              (claim_batch_size settings) in
       if Machine.py_truthy jobs then lift (Machine.py_iter jobs) else ret []) w.
Proof.
  intros Hfile. unfold Machine.tick_begin, Scheduler.flush_outbox, bind at 1 2.
  unfold Outbox.drain. rewrite Hfile. reflexivity.
Qed.

Lemma tick_begin_absent_log (sc : Scheduler.t) (w : World) :
  outbox_file w = None ->
  log (snd (Machine.tick_begin settings sc w))
    = (log w ++ [EvHttp (PostClaim (Scheduler.bot_id sc) (Scheduler.ops sc)
                                   (claim_batch_size settings))
                        (net w (exchanges w))])%list.
Proof.
  intros Hfile. rewrite (tick_begin_absent sc w Hfile).
  unfold bind, Api.claim, bind, Api.post, lift, ret.
  destruct (net w (exchanges w)) as [x|st [data|x]]; simpl; try reflexivity.
  destruct (py_get data "jobs" (JArr [])) as [jobs|x]; simpl; [|reflexivity].
  destruct (Machine.py_truthy jobs); reflexivity.
Qed.

Lemma tick_from_idle (s : Machine.Sys) :
  Machine.pc s = Machine.Idle ->
  exists s',
    Machine.tick settings s = Some s' /\
    Machine.world s' = snd (Machine.tick_begin settings (Machine.sched s) (Machine.world s)) /\
    Machine.sched s' = Machine.sched s /\
    Machine.tasks s' = Machine.tasks s.
Proof.
  intros Hpc. unfold Machine.tick. rewrite Hpc.
  destruct (Machine.tick_begin settings (Machine.sched s) (Machine.world s))
    as [[[|j js]|x] w1]; eexists; (split; [reflexivity|]); simpl; auto.
Qed.

(** X11. A line of the outbox that does not parse costs one tick and
    the whole outbox: that tick raises before it claims anything, with
    the file already removed, and the tick after it goes straight to
    its claim. *)
Theorem corrupt_outbox_aborts_one_tick (s : Machine.Sys) (text l : string) (e : exn) :
  Machine.pc s = Machine.Idle ->
  outbox_file (Machine.world s) = Some text ->
  l ∈ splitlines text ->
  json_loads l = Raise e ->
  exists e' s' s'',
    Machine.tick settings s = Some s' /\
    Machine.pc s' = Machine.Idle /\
    Machine.outcomes s' = (Machine.outcomes s ++ [Raise e'])%list /\
    Machine.tasks s' = Machine.tasks s /\
    log (Machine.world s') = log (Machine.world s) /\
    outbox_file (Machine.world s') = None /\
    Machine.tick settings s' = Some s'' /\
    log (Machine.world s'')
      = (log (Machine.world s)
         ++ [EvHttp (PostClaim (Scheduler.bot_id (Machine.sched s))
                               (Scheduler.ops (Machine.sched s))
                               (claim_batch_size settings))
                    (net (Machine.world s) (exchanges (Machine.world s)))])%list.
Proof.
  intros Hpc Hfile Hin Hl.
  destruct (loads_all_raise _ _ _ Hin Hl) as [e' He'].
  assert (Hbegin : Machine.tick_begin settings (Machine.sched s) (Machine.world s)
                   = (Raise e', Outbox.with_outbox None (Machine.world s))).
  { unfold Machine.tick_begin, Scheduler.flush_outbox, bind at 1 2.
    unfold Outbox.drain. rewrite Hfile, He'. reflexivity. }
  set (s1 := Machine.end_tick (Raise e') (Outbox.with_outbox None (Machine.world s))
               (Machine.mkSys (Machine.world s) (Machine.heap s) (Machine.sem s)
                  (Machine.sched s) (Machine.cap s) (Machine.tasks s)
                  Machine.Idle (S (Machine.ticks s)) (Machine.outcomes s))).
  assert (Htick : Machine.tick settings s = Some s1).
  { unfold Machine.tick. rewrite Hpc, Hbegin. reflexivity. }
  destruct (tick_from_idle s1 eq_refl) as (s2 & Htick2 & Hw2 & _ & _).
  exists e', s1, s2. rewrite Htick.
  repeat split; try reflexivity; [exact Htick2|].
  rewrite Hw2. rewrite tick_begin_absent_log by reflexivity. reflexivity.
Qed.

(** X12. A tick that finds no outbox makes one HTTP call, the claim for
    the scheduler's bot id and operations with [claim_batch_size] as
    limit.  When that call raises the tick raises its error; when the
    response has no [jobs] or an empty list the tick returns.  In both
    cases it creates no task and the run loop is between two ticks
    again. *)
Theorem tick_without_work (s : Machine.Sys) :
  Machine.pc s = Machine.Idle ->
  outbox_file (Machine.world s) = None ->
  let w := Machine.world s in
  let call := EvHttp (PostClaim (Scheduler.bot_id (Machine.sched s))
                                (Scheduler.ops (Machine.sched s))
                                (claim_batch_size settings))
                     (net w (exchanges w)) in
  (forall e, net w (exchanges w) = NetError e ->
     exists s', Machine.tick settings s = Some s' /\
       Machine.pc s' = Machine.Idle /\
       Machine.outcomes s' = (Machine.outcomes s ++ [Raise e])%list /\
       Machine.tasks s' = Machine.tasks s /\
       log (Machine.world s') = (log w ++ [call])%list) /\
  (forall st d, net w (exchanges w) = NetResponse st (Ret (JObj d)) ->
     dict_lookup "jobs" d = None \/ dict_lookup "jobs" d = Some (JArr []) ->
     exists s', Machine.tick settings s = Some s' /\
       Machine.pc s' = Machine.Idle /\
       Machine.outcomes s' = (Machine.outcomes s ++ [Ret tt])%list /\
       Machine.tasks s' = Machine.tasks s /\
       log (Machine.world s') = (log w ++ [call])%list).
Proof.
  intros Hpc Hfile w call. split.
  - intros e Hnet. unfold Machine.tick. rewrite Hpc.
    rewrite (tick_begin_absent _ _ Hfile).
    unfold bind, Api.claim, bind, Api.post, lift. fold w. rewrite Hnet. simpl.
    eexists. split; [reflexivity|]. simpl. subst call. rewrite Hnet. auto.
  - intros st d Hnet Hjobs. unfold Machine.tick. rewrite Hpc.
    rewrite (tick_begin_absent _ _ Hfile).
    unfold bind, Api.claim, bind, Api.post, lift, ret. fold w. rewrite Hnet. simpl.
    destruct Hjobs as [-> | ->]; simpl;
      (eexists; split; [reflexivity|]; simpl; subst call; rewrite Hnet; auto).
Qed.

End MoreMachineFacts.

(** ** More on the identity *)

Section MoreIdentityFacts.
Context `{JsonLib}.

(** X13. With no identity file, [load_identity] builds the identity
    from the host (the fingerprint of [hostname|os] as [bot_key], one
    uuid as [instance_id]) and writes it; the next load reads that file
    back and draws no uuid, so the identity is the same at every later
    start. *)
Theorem identity_created_once (h : Identity.Host) (e : Identity.Env) :
  Identity.identity_file e = None ->
  let ident :=
    JObj [("bot_key", JStr (Identity.sha256_hex h
                              (Identity.gethostname h +:+ "|" +:+ Identity.platform h)));
          ("instance_id", JStr (Identity.uuid4 h (Identity.uuids_drawn e)));
          ("hostname", JStr (Identity.gethostname h));
          ("os", JStr (Identity.platform h))] in
  json_loads (json_dumps_indent2 ident) = Ret ident ->
  let e1 := snd (Identity.load_identity h e) in
  fst (Identity.load_identity h e) = Ret ident /\
  Identity.identity_file e1 = Some (json_dumps_indent2 ident) /\
  Identity.uuids_drawn e1 = S (Identity.uuids_drawn e) /\
  Identity.load_identity h e1 = (Ret ident, e1).
Proof.
  intros Hfile ident Hround e1.
  assert (Hload : Identity.load_identity h e
                  = (Ret ident,
                     Identity.mkEnv (Some (json_dumps_indent2 ident))
                                    (S (Identity.uuids_drawn e)))).
  { unfold Identity.load_identity. rewrite Hfile. reflexivity. }
  subst e1. rewrite Hload. simpl. repeat split.
  unfold Identity.load_identity. simpl. rewrite Hround. reflexivity.
Qed.

(** X14. An identity file that does not parse to an object is never
    overwritten: [load_identity] returns what the parser gives and
    leaves everything as it is, and [rotate_instance_id] raises with
    the file untouched. *)
Theorem unreadable_identity_is_kept (h : Identity.Host) (e : Identity.Env)
    (text : string) :
  Identity.identity_file e = Some text ->
  (forall d, json_loads text <> Ret (JObj d)) ->
  Identity.load_identity h e = (json_loads text, e) /\
  is_ret (fst (Identity.rotate_instance_id h e)) = false /\
  Identity.identity_file (snd (Identity.rotate_instance_id h e)) = Some text.
Proof.
  intros Hfile Hbad.
  assert (Hload : Identity.load_identity h e = (json_loads text, e)).
  { unfold Identity.load_identity. rewrite Hfile. reflexivity. }
  split; [exact Hload|].
  unfold Identity.rotate_instance_id. rewrite Hload.
  destruct (json_loads text) as [v|x] eqn:Hv; simpl; [|auto].
  destruct v; simpl; auto. exfalso. eapply Hbad. reflexivity.
Qed.

(** X15. With no identity file, [rotate_instance_id] first creates the
    identity and then replaces its [instance_id]: two uuids are drawn,
    the record returned and written carries the second one, and its
    [bot_key] is the fingerprint of the host. *)
Theorem rotate_without_file (h : Identity.Host) (e : Identity.Env) :
  Identity.identity_file e = None ->
  let ident :=
    JObj [("bot_key", JStr (Identity._machine_fingerprint h));
          ("instance_id", JStr (Identity.uuid4 h (S (Identity.uuids_drawn e))));
          ("hostname", JStr (Identity.gethostname h));
          ("os", JStr (Identity.platform h))] in
  Identity.rotate_instance_id h e
    = (Ret ident,
       Identity.mkEnv (Some (json_dumps_indent2 ident))
                      (S (S (Identity.uuids_drawn e)))).
Proof.
  intros Hfile ident. unfold Identity.rotate_instance_id, Identity.load_identity.
  rewrite Hfile. reflexivity.
Qed.

End MoreIdentityFacts.

(** ** Registration *)

Section RegisterFacts.
Variable py_repr : json -> string.
Variable settings : Settings.

Lemma register_returns (c c' : Client.t)
    (ident capabilities resources constraints meta : json) (out : NetOutcome)
    (data : json) :
  Client.register py_repr settings c ident capabilities resources constraints meta out
    = (Ret data, c') ->
  exists st auth,
    out = NetResponse st (Ret data) /\
    (st = 200 \/ st = 201)%Z /\
    py_getitem data "auth" = Ret auth /\
    py_getitem auth "access_token" = Ret (Client._token c').
Proof.
  unfold Client.register.
  destruct (Client.register_body settings ident capabilities resources constraints meta);
    [|discriminate].
  destruct out as [x|st [d|x]]; try discriminate.
  destruct ((st =? 200)%Z || (st =? 201)%Z) eqn:Hst; [|discriminate].
  destruct (py_getitem d "auth") as [auth|x] eqn:Hauth; simpl; [|discriminate].
  destruct (py_getitem auth "access_token") as [tok|x] eqn:Htok; [|discriminate].
  intros [= <- <-]. exists st, auth. simpl.
  repeat split; try assumption.
  apply orb_prop in Hst as [Hst|Hst]; apply Z.eqb_eq in Hst; auto.
Qed.

Lemma register_raises (c : Client.t)
    (ident capabilities resources constraints meta : json) (out : NetOutcome) :
  is_ret (fst (Client.register py_repr settings c ident capabilities resources
                 constraints meta out)) = false ->
  snd (Client.register py_repr settings c ident capabilities resources
         constraints meta out) = c.
Proof.
  unfold Client.register.
  destruct (Client.register_body settings ident capabilities resources constraints meta);
    [|reflexivity].
  destruct out as [x|st [d|x]]; try reflexivity.
  destruct ((st =? 200)%Z || (st =? 201)%Z); [|reflexivity].
  destruct (let+ auth := py_getitem d "auth" in py_getitem auth "access_token");
    [discriminate|reflexivity].
Qed.

(** X16. [register] returns only on a 200 or a 201 whose body has
    [auth.access_token], and then returns the body and keeps that
    token; in every other case it raises and the token is the one it
    had.  On another status with a body that decodes, the error is
    [register failed: <status> <body>]. *)
Theorem register_gates_on_status (c : Client.t)
    (ident capabilities resources constraints meta : json) (out : NetOutcome) :
  let r := fst (Client.register py_repr settings c ident capabilities resources
                  constraints meta out) in
  let c' := snd (Client.register py_repr settings c ident capabilities resources
                   constraints meta out) in
  (forall data, r = Ret data ->
     exists st auth,
       out = NetResponse st (Ret data) /\
       (st = 200 \/ st = 201)%Z /\
       py_getitem data "auth" = Ret auth /\
       py_getitem auth "access_token" = Ret (Client._token c')) /\
  (is_ret r = false -> c' = c) /\
  (forall st data,
     is_ret (Client.register_body settings ident capabilities resources
               constraints meta) = true ->
     out = NetResponse st (Ret data) ->
     st <> 200%Z -> st <> 201%Z ->
     r = Raise (RuntimeError ("register failed: " +:+ pretty st +:+ " "
                              +:+ Client.fstr py_repr data))).
Proof.
  cbv zeta. split; [|split].
  - intros data Hr.
    apply (register_returns c _ ident capabilities resources constraints meta).
    destruct (Client.register _ _ _ _ _ _ _ _ _) as [r c']. simpl in Hr.
    rewrite Hr. reflexivity.
  - apply register_raises.
  - intros st data Hbody -> H200 H201. unfold Client.register.
    destruct (Client.register_body settings ident capabilities resources constraints meta);
      [|discriminate].
    apply Z.eqb_neq in H200, H201. rewrite H200, H201. reflexivity.
Qed.

(** X17. After a [register] that returned, the headers of the client
    carry [Authorization: Bearer <token>] when the token of the
    response is a non-empty string, and only the content type when it
    is the empty string. *)
Theorem headers_after_register (c : Client.t)
    (ident capabilities resources constraints meta : json) (out : NetOutcome)
    (data auth : json) (token : string) :
  fst (Client.register py_repr settings c ident capabilities resources
         constraints meta out) = Ret data ->
  py_getitem data "auth" = Ret auth ->
  py_getitem auth "access_token" = Ret (JStr token) ->
  Client._headers py_repr
    (snd (Client.register py_repr settings c ident capabilities resources
            constraints meta out))
    = if String.eqb token ""
      then [("Content-Type", "application/json")]
      else [("Content-Type", "application/json");
            ("Authorization", "Bearer " +:+ token)].
Proof.
  intros Hr Hauth Htok.
  destruct (Client.register py_repr settings c ident capabilities resources
              constraints meta out) as [r c'] eqn:Hreg.
  simpl in Hr. subst r.
  destruct (register_returns _ _ _ _ _ _ _ _ _ Hreg) as (st & auth' & _ & _ & Ha & Ht).
  rewrite Hauth in Ha. injection Ha as <-. rewrite Htok in Ht. injection Ht as Ht.
  simpl. unfold Client._headers. rewrite <- Ht. simpl.
  destruct (String.eqb token ""); reflexivity.
Qed.

(** X18. The scheduler of a bot is built by [_register] and only when
    [_register] returns: on a bot without scheduler, the scheduler is
    set exactly when the call returned, and then the server answered
    200 or 201, the bot id is the [bot_id] of the response, and the
    scheduler carries that bot id, the instance id of the identity and
    the operations and [max_concurrency] of the bot's assignment.  The
    identity is never changed. *)
Theorem scheduler_only_after_register (self : Bot.t) (out : NetOutcome) :
  Bot.scheduler self = None ->
  let r := fst (Bot._register py_repr settings self out) in
  let b := snd (Bot._register py_repr settings self out) in
  (r = Ret tt <-> is_Some (Bot.scheduler b)) /\
  Bot.ident b = Bot.ident self /\
  (forall so, Bot.scheduler b = Some so ->
     exists st data,
       out = NetResponse st (Ret data) /\
       (st = 200 \/ st = 201)%Z /\
       py_getitem data "bot_id" = Ret (Bot.bot_id b) /\
       Scheduler.bot_id (Bot.fields so) = Bot.bot_id b /\
       py_getitem (Bot.ident self) "instance_id"
         = Ret (Scheduler.instance_id (Bot.fields so)) /\
       py_getitem (Bot.assignment b) "operations"
         = Ret (Scheduler.ops (Bot.fields so)) /\
       py_getitem (Bot.assignment b) "max_concurrency" = Ret (Bot.sem_value so)).
Proof.
  intros Hnone. cbv zeta. unfold Bot._register.
  destruct (py_getitem (Bot.assignment self) "operations") as [ops0|x]; simpl.
  2:{ rewrite Hnone. split; [split; [discriminate|intros [? ?]; discriminate]|].
      split; [reflexivity|]. discriminate. }
  destruct (Client.register py_repr settings (Bot.api self) (Bot.ident self) _ _ _ _ out)
    as [[data|x] api'] eqn:Hreg; simpl.
  2:{ rewrite Hnone. split; [split; [discriminate|intros [? ?]; discriminate]|].
      split; [reflexivity|]. discriminate. }
  destruct (register_returns _ _ _ _ _ _ _ _ _ Hreg) as (st & auth & Hout & Hst & _ & _).
  destruct (py_getitem data "bot_id") as [bid|x] eqn:Hbid; simpl.
  2:{ rewrite Hnone. split; [split; [discriminate|intros [? ?]; discriminate]|].
      split; [reflexivity|]. discriminate. }
  destruct (py_get data "assignment" (Bot.assignment self)) as [asg|x]; simpl.
  2:{ rewrite Hnone. split; [split; [discriminate|intros [? ?]; discriminate]|].
      split; [reflexivity|]. discriminate. }
  destruct (py_getitem (Bot.ident self) "instance_id") as [iid|x] eqn:Hiid; simpl.
  2:{ rewrite Hnone. split; [split; [discriminate|intros [? ?]; discriminate]|].
      split; [reflexivity|]. discriminate. }
  destruct (py_getitem asg "operations") as [ops|x] eqn:Hops; simpl.
  2:{ rewrite Hnone. split; [split; [discriminate|intros [? ?]; discriminate]|].
      split; [reflexivity|]. discriminate. }
  destruct (py_getitem asg "max_concurrency") as [mc|x] eqn:Hmc; simpl.
  2:{ rewrite Hnone. split; [split; [discriminate|intros [? ?]; discriminate]|].
      split; [reflexivity|]. discriminate. }
  unfold Bot.new_scheduler.
  destruct (Bot.Semaphore mc) as [v|x] eqn:Hsem; simpl.
  2:{ rewrite Hnone. split; [split; [discriminate|intros [? ?]; discriminate]|].
      split; [reflexivity|]. discriminate. }
  split; [split; [eauto|reflexivity]|]. split; [reflexivity|].
  intros so [= <-]. exists st, data. simpl.
  assert (Hv : v = mc).
  { unfold Bot.Semaphore in Hsem. destruct mc as [| |z|r| | |]; try discriminate.
    - injection Hsem as <-. reflexivity.
    - destruct (z <? 0)%Z; [discriminate|]. injection Hsem as <-. reflexivity.
    - destruct (String.prefix "-" r && negb (String.eqb r "-0.0"));
        [discriminate|]. injection Hsem as <-. reflexivity. }
  subst v. repeat split; assumption.
Qed.

End RegisterFacts.

(** ** The further scenarios, run *)

Section MoreScenarios.
#[local] Existing Instance MiniJson.lib.

Lemma outbox_fifo_witness :
  fst (Outbox.drain 1000
         (snd (append_all [Scenario.e1; Scenario.e2] Cases.quiet)))
    = Ret [Scenario.e1; Scenario.e2].
Proof.
  edestruct (outbox_fifo [Scenario.e1; Scenario.e2] 1000 Cases.quiet)
    as (_ & Hdrain & _); [settle..|exact Hdrain].
Defined.

Lemma flush_outbox_delivers_all_witness :
  outbox_file (snd (Scheduler.flush_outbox Cases.all_accepted)) = None /\
  length (delivered (log (snd (Scheduler.flush_outbox Cases.all_accepted)))) = 3.
Proof.
  edestruct (flush_outbox_delivers_all
               (Scenario.line Scenario.e1 +:+ Scenario.line Scenario.e2
                +:+ Scenario.line Scenario.e3)
               [Scenario.e1; Scenario.e2; Scenario.e3]
               [PostReport (JStr "job_1") (JStr "complete")
                  (JObj [("instance_id", JStr "inst_1");
                         ("result", JObj [("result", JInt 1)])]);
                PostReport (JStr "job_2") (JStr "complete")
                  (JObj [("instance_id", JStr "inst_1");
                         ("result", JObj [("result", JInt 2)])]);
                PostReport (JStr "job_3") (JStr "complete")
                  (JObj [("instance_id", JStr "inst_1");
                         ("result", JObj [("result", JInt 3)])])]
               Cases.all_accepted)
    as (_ & Hfile & _ & Hdelivered & _); [settle..|].
  split; [exact Hfile|]. rewrite Hdelivered. reflexivity.
Defined.


Lemma flush_raises_only_on_disk_or_corruption_witness :
  (exists text, outbox_file Cases.corrupt = Some text /\
                Outbox.loads_all (splitlines text)
                  = Raise (MiniJson.JSONDecodeError "Expecting value")) \/
  MiniJson.JSONDecodeError "Expecting value" = OSError "write failed".
Proof.
  apply (flush_raises_only_on_disk_or_corruption Cases.corrupt). settle.
Defined.

Lemma malformed_entry_blocks_flush_witness :
  outbox_file (snd (Scheduler.flush_outbox Cases.poisoned))
    = Some (Scenario.line Cases.headless) /\
  exchanges (snd (Scheduler.flush_outbox Cases.poisoned)) = 0.
Proof.
  rewrite (malformed_entry_blocks_flush
             (Scenario.line Cases.headless +:+ Scenario.line Scenario.e1)
             Cases.headless [Scenario.e1] Cases.poisoned); [|settle..].
  split; reflexivity.
Defined.

Lemma malformed_job_raises_before_any_call_witness :
  exists k,
    In k ["id"; "op"; "payload"] /\
    dict_lookup k [("id", JStr "job_2")] = None /\
    Scheduler._process_one Scenario.registry Scenario.self
      (JObj [("id", JStr "job_2")]) Cases.quiet
      = (Raise (KeyError k), Cases.quiet).
Proof.
  apply (proj1 (malformed_job_raises_before_any_call Scenario.registry
                  Scenario.self [("id", JStr "job_2")] Cases.quiet)).
  reflexivity.
Defined.

Lemma bounded_without_reassignment_witness :
  match Machine.run Scenario.registry default_settings Cases.busy_steps
          (Machine.init Cases.busy Scenario.self 1) with
  | Some s => Machine.in_flight s <= 1
  | None => False
  end.
Proof.
  destruct (Machine.run Scenario.registry default_settings Cases.busy_steps
              (Machine.init Cases.busy Scenario.self 1)) as [s|] eqn:Hrun.
  - exact (proj1 (bounded_without_reassignment Scenario.registry default_settings
                    Cases.busy Scenario.self 1 Cases.busy_steps s eq_refl Hrun)).
  - vm_compute in Hrun. discriminate.
Defined.

Lemma permits_accounted_witness :
  match Machine.run Scenario.registry default_settings Scenario.reassigned_steps
          (Machine.init Scenario.reassigned Scenario.self 2) with
  | Some s => sum_list (Machine.heap s) + Machine.in_flight s = 3
  | None => False
  end.
Proof.
  destruct (Machine.run Scenario.registry default_settings Scenario.reassigned_steps
              (Machine.init Scenario.reassigned Scenario.self 2)) as [s|] eqn:Hrun.
  - exact (proj1 (permits_accounted Scenario.registry default_settings
                    Scenario.reassigned Scenario.self 2 Scenario.reassigned_steps
                    s Hrun)).
  - vm_compute in Hrun. discriminate.
Defined.

Lemma waiting_is_starved : starved 0 Cases.waiting.
Proof.
  split; [eexists; vm_compute; reflexivity|].
  split; [vm_compute; reflexivity|vm_compute; discriminate].
Qed.

Lemma replaced_semaphore_starves_tick_witness :
  match Machine.run Scenario.registry default_settings
          [Machine.DoFinish 0; Machine.DoAssign (JArr [JStr "sum"]) 2]
          Cases.waiting with
  | Some s => Machine.pc s = Machine.pc Cases.waiting /\
              length (Machine.tasks s) = length (Machine.tasks Cases.waiting)
  | None => False
  end.
Proof.
  destruct (Machine.run Scenario.registry default_settings
              [Machine.DoFinish 0; Machine.DoAssign (JArr [JStr "sum"]) 2]
              Cases.waiting) as [s|] eqn:Hrun.
  - destruct (replaced_semaphore_starves_tick Scenario.registry default_settings
                0 _ Cases.waiting s waiting_is_starved Hrun)
      as (_ & Hpc & _ & _ & Hlen).
    split; assumption.
  - vm_compute in Hrun. discriminate.
Defined.

Lemma corrupt_outbox_aborts_one_tick_witness :
  exists e' s' s'',
    Machine.tick default_settings (Machine.init Cases.corrupt Scenario.self 2) = Some s' /\
    Machine.outcomes s' = [Raise e'] /\
    outbox_file (Machine.world s') = None /\
    Machine.tick default_settings s' = Some s'' /\
    length (log (Machine.world s'')) = 1.
Proof.
  destruct (corrupt_outbox_aborts_one_tick default_settings
              (Machine.init Cases.corrupt Scenario.self 2)
              (Cases.broken_line +:+ newline) Cases.broken_line
              (MiniJson.JSONDecodeError "Expecting value")
              eq_refl eq_refl)
    as (e' & s' & s'' & Ht & _ & Hout & _ & _ & Hfile & Ht2 & Hlog).
  - vm_compute. apply list_elem_of_here.
  - vm_compute. reflexivity.
  - exists e', s', s''. rewrite Hlog. repeat split; assumption.
Defined.

Lemma tick_without_work_witness :
  exists s',
    Machine.tick default_settings
      (Machine.init (Scenario.world0 None Scenario.disk_ok
                       (Scenario.script [Scenario.unreachable]))
                    Scenario.self 2) = Some s' /\
    Machine.pc s' = Machine.Idle /\
    Machine.tasks s' = [].
Proof.
  destruct (proj1 (tick_without_work default_settings
                     (Machine.init (Scenario.world0 None Scenario.disk_ok
                                      (Scenario.script [Scenario.unreachable]))
                                   Scenario.self 2) eq_refl eq_refl)
                  _ eq_refl)
    as (s' & Ht & Hpc & _ & Htasks & _).
  exists s'. repeat split; assumption.
Defined.

Lemma identity_created_once_witness :
  let e1 := snd (Identity.load_identity Scenario.host (Identity.mkEnv None 0)) in
  Identity.load_identity Scenario.host e1
    = (fst (Identity.load_identity Scenario.host (Identity.mkEnv None 0)), e1).
Proof.
  destruct (identity_created_once (H := MiniJson.lib) Scenario.host
              (Identity.mkEnv None 0) eq_refl ltac:(vm_compute; reflexivity))
    as (Hfst & _ & _ & Hagain).
  cbv zeta. rewrite Hfst. exact Hagain.
Defined.

Lemma unreadable_identity_is_kept_witness :
  Identity.identity_file
    (snd (Identity.rotate_instance_id Scenario.host
            (Identity.mkEnv (Some "[1, 2]") 0)))
    = Some "[1, 2]".
Proof.
  refine (proj2 (proj2 (unreadable_identity_is_kept (H := MiniJson.lib)
                          Scenario.host (Identity.mkEnv (Some "[1, 2]") 0)
                          "[1, 2]" eq_refl _))).
  intros d. vm_compute. discriminate.
Defined.

Lemma rotate_without_file_witness :
  Identity.uuids_drawn
    (snd (Identity.rotate_instance_id Scenario.host (Identity.mkEnv None 0))) = 2.
Proof.
  rewrite (rotate_without_file Scenario.host (Identity.mkEnv None 0) eq_refl).
  reflexivity.
Defined.

Lemma register_gates_on_status_witness :
  fst (Client.register Cases.repr default_settings Client.new Cases.identity
         (JArr [JStr "sum"]) (JObj []) (JObj []) (JObj []) Cases.rejected)
    = Raise (RuntimeError "register failed: 400 {'error': 'invalid_version'}").
Proof.
  apply (proj2 (proj2 (register_gates_on_status Cases.repr default_settings
                         Client.new Cases.identity (JArr [JStr "sum"]) (JObj [])
                         (JObj []) (JObj []) Cases.rejected))
           400%Z (JObj [("error", JStr "invalid_version")]));
    [reflexivity|reflexivity|discriminate|discriminate].
Defined.

Lemma headers_after_register_witness :
  Client._headers Cases.repr
    (snd (Client.register Cases.repr default_settings Client.new Cases.identity
            (JArr [JStr "sum"]) (JObj []) (JObj []) (JObj []) Cases.created))
    = [("Content-Type", "application/json");
       ("Authorization", "Bearer new-token")].
Proof.
  exact (headers_after_register Cases.repr default_settings Client.new
           Cases.identity (JArr [JStr "sum"]) (JObj []) (JObj []) (JObj [])
           Cases.created _ (JObj [("access_token", JStr "new-token")]) "new-token"
           eq_refl eq_refl eq_refl).
Defined.

Lemma scheduler_only_after_register_witness :
  is_Some (Bot.scheduler
             (snd (Bot._register Cases.repr default_settings
                     (Bot.init default_settings Cases.identity) Cases.created))) /\
  ~ is_Some (Bot.scheduler
               (snd (Bot._register Cases.repr default_settings
                       (Bot.init default_settings Cases.identity) Cases.rejected))).
Proof.
  split.
  - apply (proj1 (scheduler_only_after_register Cases.repr default_settings
                    (Bot.init default_settings Cases.identity) Cases.created
                    eq_refl)).
    reflexivity.
  - intros Hsome.
    apply (proj1 (scheduler_only_after_register Cases.repr default_settings
                    (Bot.init default_settings Cases.identity) Cases.rejected
                    eq_refl)) in Hsome.
    vm_compute in Hsome. discriminate.
Defined.

Lemma op_last_writer_wins_witness :
  Jobs.run_job
    (Registry.op "sum" (fun _ => Ret (JInt 0)) Scenario.registry)
    Scenario.decoded_1
    = Ret (JInt 0).
Proof.
  exact (proj1 (op_last_writer_wins Scenario.registry "sum"
                  (fun _ => Ret (JInt 0)) Scenario.decoded_1 eq_refl)).
Defined.

Lemma run_job_needs_string_op_witness :
  is_ret (Jobs.run_job Scenario.registry
            (mkJob (JStr "job_5") (JInt 5) (JObj []) JNull)) = false.
Proof.
  refine (proj2 (run_job_needs_string_op Scenario.registry Scenario.registry
                   (mkJob (JStr "job_5") (JInt 5) (JObj []) JNull) _)).
  intros name. discriminate.
Defined.

End MoreScenarios.

(** ** Fan-out, reassignment and handler failures *)

Section FanOutFacts.
Context `{JsonLib}.
Variable REGISTRY : gmap string Handler.
Variable settings : Settings.

Lemma fan_out_run (js : list json) (s : Machine.Sys) (v : nat) :
  Machine.pc s = Machine.FanOut js None ->
  js <> [] ->
  Machine.heap s !! Machine.sem s = Some v ->
  length js <= v ->
  Machine.run REGISTRY settings (replicate (length js) Machine.DoSpawn) s
    = Some (Machine.mkSys (Machine.world s)
              (<[Machine.sem s := v - length js]> (Machine.heap s))
              (Machine.sem s) (Machine.sched s) (Machine.cap s)
              (Machine.tasks s
               ++ map (fun raw => Machine.mkTask raw (Machine.ticks s) (Machine.cap s)
                                    Machine.Running) js)
              Machine.Gather (Machine.ticks s) (Machine.outcomes s)).
Proof.
  revert s v. induction js as [|raw rest IH]; intros s v Hpc Hne Hv Hlen;
    [congruence|].
  simpl in Hlen. destruct v as [|v]; [lia|].
  pose proof (lookup_lt_Some _ _ _ Hv) as Hlt.
  simpl. unfold Machine.spawn. rewrite Hpc. simpl. rewrite Hv.
  destruct rest as [|raw' rest'].
  - simpl. rewrite Nat.sub_0_r. reflexivity.
  - rewrite (IH _ v); simpl.
    + rewrite list_insert_insert_eq, <- app_assoc. reflexivity.
    + reflexivity.
    + discriminate.
    + apply list_lookup_insert_eq. exact Hlt.
    + simpl in Hlen. lia.
Qed.

Lemma running_all (js : list json) (tk : nat) (c : Z) :
  length (filter (fun t => Machine.is_running t = true)
            (map (fun raw => Machine.mkTask raw tk c Machine.Running) js))
    = length js.
Proof.
  induction js as [|raw js IH]; [reflexivity|].
  cbn [map]. rewrite filter_cons.
  destruct (decide _) as [_|Hn]; [cbn [length]; f_equal; exact IH|].
  exfalso. apply Hn. reflexivity.
Qed.

(** X23. With at least as many permits as jobs in the batch, the [for]
    loop of [tick] creates one task per job, in the order of the claim
    response, takes one permit for each, and reaches [gather]. *)
Theorem fan_out_in_claim_order (js : list json) (s : Machine.Sys) (v : nat) :
  Machine.pc s = Machine.FanOut js None ->
  js <> [] ->
  Machine.heap s !! Machine.sem s = Some v ->
  length js <= v ->
  exists s',
    Machine.run REGISTRY settings (replicate (length js) Machine.DoSpawn) s = Some s' /\
    map Machine.t_raw (Machine.tasks s') = (map Machine.t_raw (Machine.tasks s) ++ js)%list /\
    Machine.in_flight s' = Machine.in_flight s + length js /\
    Machine.heap s' !! Machine.sem s' = Some (v - length js) /\
    Machine.pc s' = Machine.Gather.
Proof.
  intros Hpc Hne Hv Hlen. eexists. split; [apply (fan_out_run js s v); assumption|].
  pose proof (lookup_lt_Some _ _ _ Hv) as Hlt. simpl.
  split; [|split; [|split; [|reflexivity]]].
  - rewrite map_app, map_map. simpl. rewrite map_id. reflexivity.
  - unfold Machine.in_flight. simpl. rewrite filter_app, length_app. f_equal.
    apply running_all.
  - apply list_lookup_insert_eq. exact Hlt.
Qed.

(** X22. An assignment that the heartbeat installs between two ticks
    is what the next tick claims with: its claim carries the new
    operations, with the same bot id and limit, and a non-negative
    [max_concurrency] becomes the number of permits of the semaphore in
    use. *)
Theorem assignment_reaches_next_claim (s s1 : Machine.Sys) (new_ops : json) (m : Z) :
  Machine.pc s = Machine.Idle ->
  outbox_file (Machine.world s) = None ->
  Machine.heartbeat_assign new_ops m s = Some s1 ->
  (exists s2,
     Machine.tick settings s1 = Some s2 /\
     log (Machine.world s2)
       = (log (Machine.world s)
          ++ [EvHttp (PostClaim (Scheduler.bot_id (Machine.sched s)) new_ops
                                (claim_batch_size settings))
                     (net (Machine.world s) (exchanges (Machine.world s)))])%list) /\
  ((0 <= m)%Z -> Machine.heap s1 !! Machine.sem s1 = Some (Z.to_nat m)) /\
  ((m < 0)%Z -> Machine.heap s1 = Machine.heap s /\ Machine.sem s1 = Machine.sem s).
Proof.
  intros Hpc Hfile Hassign. unfold Machine.heartbeat_assign in Hassign.
  destruct (0 <=? m)%Z eqn:Hm; injection Hassign as <-.
  - split; [|split].
    + edestruct (tick_from_idle settings) as (s2 & Ht & Hw & _ & _);
        [|exists s2; split; [exact Ht|]; rewrite Hw].
      * exact Hpc.
      * simpl. rewrite tick_begin_absent_log by exact Hfile. reflexivity.
    + intros _. simpl. rewrite lookup_app_r by lia.
      rewrite Nat.sub_diag. reflexivity.
    + apply Z.leb_le in Hm. lia.
  - split; [|split].
    + edestruct (tick_from_idle settings) as (s2 & Ht & Hw & _ & _);
        [|exists s2; split; [exact Ht|]; rewrite Hw].
      * exact Hpc.
      * simpl. rewrite tick_begin_absent_log by exact Hfile. reflexivity.
    + apply Z.leb_gt in Hm. lia.
    + intros _. split; reflexivity.
Qed.

(** X21. Whether the handler returns a value that [json] encodes or
    raises an [Exception], [_process_one] on a job that decodes raises
    only the error of the outbox, and only when the report call failed
    and the disk refused the write: the exception of the handler and
    the error of the report are caught. *)
Theorem handler_errors_never_escape (self : Scheduler.t) (raw : json) (job : Job)
    (w : World) (e : exn) :
  Scheduler.decode raw = Ret job ->
  fst (Scheduler._process_one REGISTRY self raw w) = Raise e ->
  e = OSError "write failed" /\
  report_ok (net w (exchanges w)) = false /\
  disk w (writes w) = false.
Proof.
  intros Hdec.
  destruct (process_one_run REGISTRY self raw job w Hdec)
    as (action & payload & _ & ->). cbv zeta.
  unfold Outbox.append, Api.post.
  destruct (net w (exchanges w)) as [x|st [b|x]]; simpl; try discriminate;
    destruct (disk w (writes w)); simpl; try discriminate;
    intros [= <-]; auto.
Qed.

End FanOutFacts.

Section LastScenarios.
#[local] Existing Instance MiniJson.lib.

Lemma fan_out_in_claim_order_witness :
  exists s',
    Machine.run Scenario.registry default_settings
      [Machine.DoSpawn; Machine.DoSpawn] Cases.claimed = Some s' /\
    map Machine.t_raw (Machine.tasks s')
      = [Scenario.raw_job "a" 1 1; Scenario.raw_job "b" 2 2] /\
    Machine.pc s' = Machine.Gather.
Proof.
  destruct (fan_out_in_claim_order Scenario.registry default_settings
              [Scenario.raw_job "a" 1 1; Scenario.raw_job "b" 2 2]
              Cases.claimed 2)
    as (s' & Hrun & Htasks & _ & _ & Hpc); [settle| discriminate |settle|settle|].
  exists s'. repeat split; assumption.
Defined.

Lemma assignment_reaches_next_claim_witness :
  Machine.heap
    (default (Machine.init Cases.quiet Scenario.self 2)
       (Machine.heartbeat_assign (JArr [JStr "sum"; JStr "multiply"]) 5
          (Machine.init Cases.quiet Scenario.self 2)))
    !! 1 = Some 5.
Proof.
  exact (proj1 (proj2 (assignment_reaches_next_claim default_settings
                         (Machine.init Cases.quiet Scenario.self 2) _
                         (JArr [JStr "sum"; JStr "multiply"]) 5
                         eq_refl eq_refl eq_refl))
               ltac:(lia)).
Defined.

Lemma handler_errors_never_escape_witness :
  report_ok (net (Scenario.world0 None Scenario.disk_full
                    (Scenario.script [Scenario.unreachable])) 0) = false.
Proof.
  exact (proj1 (proj2 (handler_errors_never_escape Scenario.registry Scenario.self
                         Scenario.job_1 Scenario.decoded_1
                         (Scenario.world0 None Scenario.disk_full
                            (Scenario.script [Scenario.unreachable]))
                         (OSError "write failed") eq_refl
                         ltac:(vm_compute; reflexivity)))).
Defined.

End LastScenarios.
